(** * jsPsych presentation plugins: categorize-animation and vsl-grid-scene

    A shallow embedding of the two plugins of the repository
    ([packages/plugin-categorize-animation/src/index.ts] and
    [packages/plugin-vsl-grid-scene/src/index.ts]) and the properties of
    their trial protocol.

    Conventions of the embedding.
    - JavaScript numbers that the plugins use as counters, indices and
      millisecond delays are integers of [Z]; they stay far below 2^53, where
      the arithmetic of doubles is exact.
    - JavaScript strings are [string]; the only string operations of the
      plugins (concatenation, search for an ASCII token, the [$] patterns of
      [String.prototype.replace]) act the same on UTF-8 bytes and on UTF-16
      code units.
    - The closure variables of a trial, the part of the DOM the plugin
      writes and the registrations it holds with the host engine (interval,
      one-shot timers, keyboard listener, finishTrial calls) are one record
      that every callback transforms.
    - The host engine is single threaded: callbacks run to completion, one at
      a time.  A run of a trial is a list of delivered events.
    - A callback that throws stops where it throws; what it wrote before
      stays written, the host counts the exception and goes on delivering
      events. *)

From Stdlib Require Import ZArith List String Ascii Bool Lia ZifyBool.
From Stdlib Require Import DecimalString.
Import ListNotations.

#[local] Open Scope string_scope.
#[local] Open Scope Z_scope.

(** ** The JavaScript string primitives the plugins rely on *)

Module JS.

(** [ToString] of a value that is a string or [null]. *)
Definition to_string (v : option string) : string :=
  match v with
  | Some s => s
  | None => "null"
  end.

(** [strip_prefix p s] is the rest of [s] after its prefix [p], if [s] starts
    with [p]. *)
Fixpoint strip_prefix (p s : string) : option string :=
  match p with
  | EmptyString => Some s
  | String a p' =>
      match s with
      | EmptyString => None
      | String b s' => if Ascii.eqb a b then strip_prefix p' s' else None
      end
  end.

(** The first occurrence of [pat] in [s]: the text before it and the text
    after it. *)
Fixpoint split_first (pat s : string) : option (string * string) :=
  match strip_prefix pat s with
  | Some post => Some (EmptyString, post)
  | None =>
      match s with
      | EmptyString => None
      | String c s' =>
          match split_first pat s' with
          | Some (pre, post) => Some (String c pre, post)
          | None => None
          end
      end
  end.

(** ECMAScript [GetSubstitution] for a string pattern (no capture groups):
    in the replacement text [$$] stands for a dollar sign, [$&] for the
    matched text, [$`] for the text before the match and [$'] for the text
    after it; every other character, a lone [$] included, stands for itself. *)
Fixpoint get_substitution (matched pre post repl : string) : string :=
  match repl with
  | EmptyString => EmptyString
  | String c tl =>
      if Ascii.eqb c "$" then
        match tl with
        | EmptyString => String c EmptyString
        | String d tl' =>
            if Ascii.eqb d "$" then String "$" (get_substitution matched pre post tl')
            else if Ascii.eqb d "&" then matched ++ get_substitution matched pre post tl'
            else if Ascii.eqb d "`" then pre ++ get_substitution matched pre post tl'
            else if Ascii.eqb d "'" then post ++ get_substitution matched pre post tl'
            else String c (get_substitution matched pre post tl)
        end
      else String c (get_substitution matched pre post tl)
  end.

(** [s.replace(pat, repl)] for a string pattern: only the first occurrence is
    replaced, and the replacement text goes through [get_substitution]. *)
Definition replace (pat repl s : string) : string :=
  match split_first pat s with
  | Some (pre, post) => pre ++ get_substitution pat pre post repl ++ post
  | None => s
  end.

(** The double-quote character, as a string. *)
Definition dq : string := String (Ascii.ascii_of_nat 34) EmptyString.

(** A replacement text without any dollar sign. *)
Fixpoint dollar_free (s : string) : bool :=
  match s with
  | EmptyString => true
  | String c tl => negb (Ascii.eqb c "$") && dollar_free tl
  end.

(** A text without the character [c]. *)
Fixpoint lacks (c : ascii) (s : string) : bool :=
  match s with
  | EmptyString => true
  | String a tl => negb (Ascii.eqb c a) && lacks c tl
  end.

End JS.

(** ** plugin-categorize-animation *)

Module CategorizeAnimation.

(** The [choices] parameter: the string ["allkeys"] or an array of keys. *)
Inductive Choices : Type :=
| AllKeys
| Keys (ks : list string).

(** The trial parameters ([info.parameters]), as the host hands them to
    [trial].  [text_answer] and [prompt] may be [null]. *)
Record TrialConfig : Type := mkConfig {
  stimuli : list string;
  key_answer : string;
  choices : Choices;
  text_answer : option string;
  correct_text : string;
  incorrect_text : string;
  frame_time : Z;
  sequence_reps : Z;
  allow_response_before_complete : bool;
  feedback_duration : Z;
  prompt : option string;
  render_on_canvas : bool
}.

(** The argument of the keyboard callback: [{key: string, rt: number}].  The
    reaction time is only passed on to the result record; it is counted in
    whole milliseconds here. *)
Record KeyInfo : Type := mkKeyInfo {
  key : string;
  rt : Z
}.

(** A filled [trial_data] object: [{stimulus, rt, correct, response}]. *)
Record TrialData : Type := mkTrialData {
  stimulus : list string;
  td_rt : Z;
  td_correct : bool;
  response : string
}.

(** The closure variables of [trial].  [correct] is [undefined] ([None])
    until a response is scored; [trial_data] is the empty object [{}]
    ([None]) until a response is recorded. *)
Record Vars : Type := mkVars {
  animate_frame : Z;
  reps : Z;
  showAnimation : bool;
  responded : bool;
  timeoutSet : bool;
  correct : option bool;
  trial_data : option TrialData
}.

(** What the plugin writes of the mount point [display_element]:
    the markup assigned through [innerHTML] (direct-markup mode), and the
    three child elements of canvas mode while they are attached: the canvas
    with the image last drawn on it, the prompt div with its visibility, the
    feedback div with its markup. *)
Record Display : Type := mkDisplay {
  innerHTML : string;
  canvas : option (option string);
  prompt_div : option bool;
  feedback_div : option string
}.

(** The registrations the trial holds with the host engine.
    - [now]: the host clock, in milliseconds since [trial] was called;
    - [animate_interval]: the due time of the next firing of the repeating
      timer, [None] once [clearInterval] was called;
    - [keyboard_listener]: whether the listener is registered;
    - [timeouts]: due times of the pending one-shot timers, in the order they
      were armed (each calls [endTrial]);
    - [timeout_calls]: the delay argument of every [pluginAPI.setTimeout]
      call so far;
    - [finished]: every [finishTrial] call so far, with its time and its
      argument;
    - [global_jsPsych]: whether the global object of the page has a property
      [jsPsych] that holds this engine (a classic script's
      [var jsPsych = initJsPsych()] makes one; a [const], a module or a
      bundle makes none; a page whose global [jsPsych] is some other object
      is not modelled);
    - [uncaught]: the number of exceptions thrown by callbacks so far. *)
Record Host : Type := mkHost {
  now : Z;
  animate_interval : option Z;
  keyboard_listener : bool;
  timeouts : list Z;
  timeout_calls : list Z;
  finished : list (Z * option TrialData);
  global_jsPsych : bool;
  uncaught : nat
}.

Record Trial : Type := mkTrial {
  vars : Vars;
  display : Display;
  host : Host
}.

(** Assignments to one variable. *)
Definition set_animate_frame (v : Z) (w : Trial) : Trial :=
  let x := vars w in
  mkTrial (mkVars v (reps x) (showAnimation x) (responded x) (timeoutSet x)
             (correct x) (trial_data x))
          (display w) (host w).

Definition set_reps (v : Z) (w : Trial) : Trial :=
  let x := vars w in
  mkTrial (mkVars (animate_frame x) v (showAnimation x) (responded x)
             (timeoutSet x) (correct x) (trial_data x))
          (display w) (host w).

Definition set_showAnimation (v : bool) (w : Trial) : Trial :=
  let x := vars w in
  mkTrial (mkVars (animate_frame x) (reps x) v (responded x) (timeoutSet x)
             (correct x) (trial_data x))
          (display w) (host w).

Definition set_responded (v : bool) (w : Trial) : Trial :=
  let x := vars w in
  mkTrial (mkVars (animate_frame x) (reps x) (showAnimation x) v (timeoutSet x)
             (correct x) (trial_data x))
          (display w) (host w).

Definition set_timeoutSet (v : bool) (w : Trial) : Trial :=
  let x := vars w in
  mkTrial (mkVars (animate_frame x) (reps x) (showAnimation x) (responded x) v
             (correct x) (trial_data x))
          (display w) (host w).

Definition set_correct (v : option bool) (w : Trial) : Trial :=
  let x := vars w in
  mkTrial (mkVars (animate_frame x) (reps x) (showAnimation x) (responded x)
             (timeoutSet x) v (trial_data x))
          (display w) (host w).

Definition set_trial_data (v : option TrialData) (w : Trial) : Trial :=
  let x := vars w in
  mkTrial (mkVars (animate_frame x) (reps x) (showAnimation x) (responded x)
             (timeoutSet x) (correct x) v)
          (display w) (host w).

Definition set_display (d : Display) (w : Trial) : Trial :=
  mkTrial (vars w) d (host w).

Definition set_host (h : Host) (w : Trial) : Trial :=
  mkTrial (vars w) (display w) h.

(** Writes to the mount point. *)
Definition set_innerHTML (s : string) (w : Trial) : Trial :=
  let d := display w in
  set_display (mkDisplay s (canvas d) (prompt_div d) (feedback_div d)) w.

Definition append_innerHTML (s : string) (w : Trial) : Trial :=
  set_innerHTML (innerHTML (display w) ++ s) w.

(** [img.src = ...; ctx.drawImage(img, 0, 0)] on the canvas.  (The canvas
    is there whenever a frame is drawn: it is removed only once
    [showAnimation] is false, and the flag is never set back.) *)
Definition draw_on_canvas (src : string) (w : Trial) : Trial :=
  let d := display w in
  set_display
    (mkDisplay (innerHTML d)
       (match canvas d with Some _ => Some (Some src) | None => None end)
       (prompt_div d) (feedback_div d)) w.

(** [canvas.remove()]. *)
Definition remove_canvas (w : Trial) : Trial :=
  let d := display w in
  set_display (mkDisplay (innerHTML d) None (prompt_div d) (feedback_div d)) w.

(** [prompt_div.style.visibility = "visible"]. *)
Definition show_prompt_div (w : Trial) : Trial :=
  let d := display w in
  set_display
    (mkDisplay (innerHTML d) (canvas d)
       (match prompt_div d with Some _ => Some true | None => None end)
       (feedback_div d)) w.

(** [prompt_div.remove()]. *)
Definition remove_prompt_div (w : Trial) : Trial :=
  let d := display w in
  set_display (mkDisplay (innerHTML d) (canvas d) None (feedback_div d)) w.

(** [feedback_div.innerHTML = ...]. *)
Definition set_feedback_div (s : string) (w : Trial) : Trial :=
  let d := display w in
  set_display
    (mkDisplay (innerHTML d) (canvas d) (prompt_div d)
       (match feedback_div d with Some _ => Some s | None => None end)) w.

(** [display_element.innerHTML] is set to the empty string: every child is
    gone. *)
Definition clear_display (w : Trial) : Trial :=
  set_display (mkDisplay EmptyString None None None) w.

(** Calls into the host engine. *)

(** [pluginAPI.setTimeout(endTrial, delay)]: a negative delay counts as 0. *)
Definition host_setTimeout (delay : Z) (w : Trial) : Trial :=
  let h := host w in
  set_host
    (mkHost (now h) (animate_interval h) (keyboard_listener h)
       (timeouts h ++ [now h + Z.max 0 delay])
       (timeout_calls h ++ [delay])
       (finished h) (global_jsPsych h) (uncaught h)) w.

(** A callback throws: the host counts the exception. *)
Definition host_uncaught (w : Trial) : Trial :=
  let h := host w in
  set_host
    (mkHost (now h) (animate_interval h) (keyboard_listener h) (timeouts h)
       (timeout_calls h) (finished h) (global_jsPsych h) (S (uncaught h))) w.

(** [clearInterval(animate_interval)]. *)
Definition host_clearInterval (w : Trial) : Trial :=
  let h := host w in
  set_host
    (mkHost (now h) None (keyboard_listener h) (timeouts h) (timeout_calls h)
       (finished h) (global_jsPsych h) (uncaught h)) w.

(** [pluginAPI.cancelKeyboardResponse(keyboard_listener)]. *)
Definition host_cancelKeyboardResponse (w : Trial) : Trial :=
  let h := host w in
  set_host
    (mkHost (now h) (animate_interval h) false (timeouts h) (timeout_calls h)
       (finished h) (global_jsPsych h) (uncaught h)) w.

(** Modelled from the spec: the host's [finishTrial] (jsPsych core, not part
    of the plugin sources).  It records the result data; the one-shot
    timers of the trial are "implicitly cancelled when the trial ends". *)
Definition host_finishTrial (data : option TrialData) (w : Trial) : Trial :=
  let h := host w in
  set_host
    (mkHost (now h) (animate_interval h) (keyboard_listener h) []
       (timeout_calls h) (finished h ++ [(now h, data)])
       (global_jsPsych h) (uncaught h)) w.

Section Callbacks.

(** The host's key comparison [pluginAPI.compareKeys] (jsPsych core): its
    policy is the host's, so the callbacks take it as a parameter. *)
Variable compareKeys : string -> string -> bool.

(** The trial parameters the callbacks close over. *)
Variable trial : TrialConfig.

(** [trial.stimuli[i]], coerced to a string where it is used. *)
Definition stimulus_at (i : Z) : string :=
  if i <? 0 then "undefined"
  else nth (Z.to_nat i) (stimuli trial) "undefined".

(** The prompt becomes visible: the hidden div is revealed in canvas mode,
    the markup is appended in direct-markup mode. *)
Definition reveal_prompt (w : Trial) : Trial :=
  match prompt trial with
  | Some p =>
      if render_on_canvas trial then show_prompt_div w
      else append_innerHTML p w
  | None => w
  end.

(** The text shown after a response (lines 198-203). *)
Definition feedback_text (c : option bool) : string :=
  match c with
  | Some true =>
      JS.replace "%ANS%" (JS.to_string (text_answer trial)) (correct_text trial)
  | _ =>
      JS.replace "%ANS%" (JS.to_string (text_answer trial)) (incorrect_text trial)
  end.

(** The callback of [setInterval] (lines 133-221), block by block. *)

(** Lines 134-136: direct-markup mode starts every firing from an empty
    mount point. *)
Definition clear_direct_markup (w : Trial) : Trial :=
  if negb (render_on_canvas trial) then set_innerHTML EmptyString w else w.

(** Lines 137-146: the frame index moves on; at the end of the sequence it
    wraps to 0, a repetition is counted and the animation is stopped when
    the count reaches a finite target. *)
Definition next_frame (w : Trial) : Trial :=
  let w := set_animate_frame (animate_frame (vars w) + 1) w in
  if animate_frame (vars w) =? Z.of_nat (List.length (stimuli trial)) then
    let w := set_animate_frame 0 w in
    let w := set_reps (reps (vars w) + 1) w in
    if negb (sequence_reps trial =? -1)
       && (sequence_reps trial <=? reps (vars w))
    then set_showAnimation false w
    else w
  else w.

(** Lines 148-163: the current frame is drawn while the animation runs. *)
Definition show_frame (w : Trial) : Trial :=
  if showAnimation (vars w) then
    if render_on_canvas trial then
      draw_on_canvas (stimulus_at (animate_frame (vars w))) w
    else
      append_innerHTML
        ("<img src=" ++ JS.dq ++ stimulus_at (animate_frame (vars w))
         ++ JS.dq ++ " class=" ++ JS.dq
         ++ "jspsych-categorize-animation-stimulus" ++ JS.dq ++ "></img>") w
  else w.

(** Lines 198-211: the feedback text is put on the display. *)
Definition show_feedback (w : Trial) : Trial :=
  let text := feedback_text (correct (vars w)) in
  if render_on_canvas trial then
    let w :=
      match prompt trial with
      | Some _ => remove_prompt_div w
      | None => w
      end in
    set_feedback_div text w
  else append_innerHTML text w.

(** Lines 213-219: the end-of-trial timer is armed, behind its guard.  The
    interval callback is a [function], not an arrow function, so its [this]
    is the object the page's timer calls it on, the global object, and
    [this.jsPsych] is the property [jsPsych] of that object, not the engine
    of the plugin.  Where the global object holds the engine the call
    reaches [pluginAPI.setTimeout]; where it has no such property,
    [this.jsPsych.pluginAPI] throws a [TypeError], after [timeoutSet] was
    set.  Nothing follows the call in the callback. *)
Definition arm_end_of_trial (w : Trial) : Trial :=
  if negb (timeoutSet (vars w)) then
    let w := set_timeoutSet true w in
    if global_jsPsych (host w)
    then host_setTimeout (feedback_duration trial) w
    else host_uncaught w
  else w.

(** Lines 165-220: the three cases on [responded] and
    [allow_response_before_complete]. *)
Definition prompt_or_feedback (w : Trial) : Trial :=
  if negb (responded (vars w)) && allow_response_before_complete trial then
    let w := reveal_prompt w in
    if render_on_canvas trial && negb (showAnimation (vars w))
    then remove_canvas w
    else w
  else if negb (responded (vars w)) then
    if negb (showAnimation (vars w)) then
      let w := reveal_prompt w in
      if render_on_canvas trial then remove_canvas w else w
    else w
  else
    arm_end_of_trial (show_feedback w).

Definition animate_tick (w : Trial) : Trial :=
  prompt_or_feedback (show_frame (next_frame (clear_direct_markup w))).

(** [endTrial] (lines 223-227). *)
Definition endTrial (w : Trial) : Trial :=
  let w := host_clearInterval w in
  let w := clear_display w in
  host_finishTrial (trial_data (vars w)) w.

(** [after_response] (lines 233-255). *)
Definition after_response (info : KeyInfo) (w : Trial) : Trial :=
  if negb (allow_response_before_complete trial) && showAnimation (vars w)
  then w
  else
    let w := set_correct (Some false) w in
    let w :=
      if compareKeys (key_answer trial) (key info)
      then set_correct (Some true) w
      else w in
    let w := set_responded true w in
    let w :=
      set_trial_data
        (Some (mkTrialData (stimuli trial) (rt info)
                 (match correct (vars w) with Some true => true | _ => false end)
                 (key info))) w in
    host_cancelKeyboardResponse w.

(** What one firing of the interval callback does to the closure variables
    alone (proved below to be the projection of [animate_tick]). *)
Definition tick_vars (x : Vars) : Vars :=
  let f := animate_frame x + 1 in
  let wrap := f =? Z.of_nat (List.length (stimuli trial)) in
  let r := if wrap then reps x + 1 else reps x in
  mkVars
    (if wrap then 0 else f)
    r
    (if wrap && negb (sequence_reps trial =? -1) && (sequence_reps trial <=? r)
     then false else showAnimation x)
    (responded x)
    (responded x || timeoutSet x)
    (correct x)
    (trial_data x).

(** The record [after_response] stores for a key event. *)
Definition result_record (info : KeyInfo) : TrialData :=
  mkTrialData (stimuli trial) (rt info)
    (compareKeys (key_answer trial) (key info)) (key info).

End Callbacks.

(** The state [trial(display_element, trial)] leaves behind when it returns
    (lines 98-130 and 257-263): the variables at their initial values, the
    canvas, the hidden prompt and the feedback div mounted in canvas mode
    (the mount point is left as it is in direct-markup mode), the interval
    and the keyboard listener registered.  The host clock starts at 0.  The
    mount point is taken to have no following sibling element, as in the
    host's page, so that [insertBefore] appends the feedback div.  [page]
    tells whether the global object of the page the trial runs on holds the
    engine as its property [jsPsych]. *)
Definition trial (page : bool) (display_element : Display)
    (trial : TrialConfig) : Trial :=
  mkTrial
    (mkVars (-1) 0 true false false None None)
    (if render_on_canvas trial then
       mkDisplay EmptyString (Some None)
         (match prompt trial with Some _ => Some false | None => None end)
         (Some EmptyString)
     else display_element)
    (mkHost 0 (Some (Z.max 0 (frame_time trial))) true [] [] [] page 0).

(** A mount point without content. *)
Definition empty_display : Display := mkDisplay EmptyString None None None.

(** *** The host engine delivering events *)

Inductive Event : Type :=
| Tick
| KeyPress (info : KeyInfo)
| Timeout.

Section Engine.

Variable compareKeys : string -> string -> bool.
Variable cfg : TrialConfig.

(** Modelled from the spec: the host's keyboard listener (jsPsych core)
    passes on only the keys of the accepted set, or any key for
    "accept any"; membership uses the host's key comparison. *)
Definition valid_response (k : string) : bool :=
  match choices cfg with
  | AllKeys => true
  | Keys ks => existsb (fun c => compareKeys c k) ks
  end.

Definition set_now (t : Z) (w : Trial) : Trial :=
  let h := host w in
  set_host
    (mkHost t (animate_interval h) (keyboard_listener h) (timeouts h)
       (timeout_calls h) (finished h) (global_jsPsych h) (uncaught h)) w.

(** The repeating timer is due again one period after a firing, unless it
    was cleared meanwhile. *)
Definition reschedule_interval (t : Z) (w : Trial) : Trial :=
  let h := host w in
  set_host
    (mkHost (now h)
       (match animate_interval h with
        | Some _ => Some (t + Z.max 0 (frame_time cfg))
        | None => None
        end)
       (keyboard_listener h) (timeouts h) (timeout_calls h) (finished h)
       (global_jsPsych h) (uncaught h)) w.

Definition drop_timeout (w : Trial) : Trial :=
  let h := host w in
  set_host
    (mkHost (now h) (animate_interval h) (keyboard_listener h)
       (tl (timeouts h)) (timeout_calls h) (finished h)
       (global_jsPsych h) (uncaught h)) w.

(** The host delivers event [e] at time [t].  An event that the host cannot
    deliver (the interval was cleared, the listener was cancelled or the key
    is not accepted, no one-shot timer is pending) changes nothing. *)
Definition deliver (te : Z * Event) (w : Trial) : Trial :=
  let (t, e) := te in
  match e with
  | Tick =>
      match animate_interval (host w) with
      | Some _ => reschedule_interval t (animate_tick cfg (set_now t w))
      | None => w
      end
  | KeyPress info =>
      if keyboard_listener (host w) && valid_response (key info)
      then after_response compareKeys cfg info (set_now t w)
      else w
  | Timeout =>
      match timeouts (host w) with
      | _ :: _ => endTrial (drop_timeout (set_now t w))
      | [] => w
      end
  end.

(** A run: the events of a list delivered in order. *)
Definition run (evs : list (Z * Event)) (w : Trial) : Trial :=
  fold_left (fun w te => deliver te w) evs w.

(** [n] firings of the interval callback in a row. *)
Definition ticks (n : nat) (w : Trial) : Trial :=
  Nat.iter n (animate_tick cfg) w.

(** The number of firings of the interval callback (each one increments
    [animate_frame] once) up to and including the one that leaves
    [showAnimation] false; [None] when [fuel] firings do not get there. *)
Fixpoint advances_until_stop (fuel : nat) (w : Trial) : option nat :=
  match fuel with
  | O => None
  | S fuel' =>
      let w' := animate_tick cfg w in
      if showAnimation (vars w') then
        match advances_until_stop fuel' w' with
        | Some n => Some (S n)
        | None => None
        end
      else Some 1%nat
  end.

(** *** The timers of the host, on a virtual clock *)

(** The timer callback that is due first: the interval or the oldest pending
    one-shot timer; the interval, registered first, goes first on a tie. *)
Definition next_event (w : Trial) : option (Z * Event) :=
  match animate_interval (host w), timeouts (host w) with
  | Some d, [] => Some (d, Tick)
  | Some d, d' :: _ => if d <=? d' then Some (d, Tick) else Some (d', Timeout)
  | None, d' :: _ => Some (d', Timeout)
  | None, [] => None
  end.

(** Let the clock run to time [t]: every timer callback due by then fires,
    in order.  [None] when more than [fuel] callbacks are due. *)
Fixpoint advance (fuel : nat) (t : Z) (w : Trial) : option Trial :=
  match next_event w with
  | None => Some w
  | Some (d, e) =>
      if d <=? t then
        match fuel with
        | O => None
        | S fuel' => advance fuel' t (deliver (d, e) w)
        end
      else Some w
  end.

(** A key goes down at time [t], after the timer callbacks due by then. *)
Definition press (fuel : nat) (t : Z) (info : KeyInfo) (w : Trial)
  : option Trial :=
  match advance fuel t w with
  | Some w' => Some (deliver (t, KeyPress info) w')
  | None => None
  end.

End Engine.

(** Before the first tick the index is -1, the interval is registered and no
    one-shot timer is pending. *)
Definition before_first_tick (w : Trial) : Prop :=
  animate_frame (vars w) = -1 /\
  animate_interval (host w) <> None /\
  timeouts (host w) = [].

(** The feedback text is on the display: in the feedback div in canvas
    mode, at the end of the markup in direct-markup mode. *)
Definition feedback_shown (cfg : TrialConfig) (w : Trial) : Prop :=
  if render_on_canvas cfg then
    feedback_div (display w) = Some (feedback_text cfg (correct (vars w)))
  else
    exists pre,
      innerHTML (display w) = (pre ++ feedback_text cfg (correct (vars w)))%string.

(** The feedback phase: a response with record [data] and score [c] is in,
    the feedback is shown, the end-of-trial timer is pending for time
    [due], the interval fires next at time [next] and the trial has not
    finished. *)
Definition feedback_phase (cfg : TrialConfig) (data : option TrialData)
    (c : option bool) (due next : Z) (w : Trial) : Prop :=
  responded (vars w) = true /\
  timeoutSet (vars w) = true /\
  trial_data (vars w) = data /\
  correct (vars w) = c /\
  animate_interval (host w) = Some next /\
  timeouts (host w) = [due] /\
  finished (host w) = [] /\
  feedback_shown cfg w.


(** The results the host can receive: the records of key events. *)
Definition recorded_response (compareKeys : string -> string -> bool)
    (cfg : TrialConfig) (data : option TrialData) : Prop :=
  exists info, data = Some (result_record compareKeys cfg info).

(** Nothing is armed, pending or finished without a recorded response. *)
Definition result_recorded (compareKeys : string -> string -> bool)
    (cfg : TrialConfig) (w : Trial) : Prop :=
  (responded (vars w) = true ->
   recorded_response compareKeys cfg (trial_data (vars w))) /\
  (timeout_calls (host w) <> [] -> responded (vars w) = true) /\
  (timeouts (host w) <> [] -> responded (vars w) = true) /\
  (finished (host w) <> [] -> responded (vars w) = true) /\
  (forall t data, In (t, data) (finished (host w)) ->
     recorded_response compareKeys cfg data).

(** *** Host policies and the scenario of the specification *)

Definition lower (c : ascii) : ascii :=
  let n := nat_of_ascii c in
  if (65 <=? n)%nat && (n <=? 90)%nat then ascii_of_nat (n + 32) else c.

Fixpoint lowercase (s : string) : string :=
  match s with
  | EmptyString => EmptyString
  | String c tl => String (lower c) (lowercase tl)
  end.

(** Modelled from the spec: a host key comparison that "may normalize
    case" (jsPsych core, not part of the plugin sources): two keys are equal
    when they are equal up to the case of their letters. *)
Definition compareKeys_caseless (expected observed : string) : bool :=
  String.eqb (lowercase expected) (lowercase observed).

(** The scenario of the specification: sequence [a, b, c], 100 ms per frame,
    two repetitions, no response before the animation is complete, expected
    key [j]; the other parameters at their defaults. *)
Definition scenario (feedback_ms : Z) : TrialConfig :=
  mkConfig ["a"; "b"; "c"] "j" AllKeys None "Correct." "Wrong."
    100 2 false feedback_ms None true.

(** The scenario with the default feedback duration, as [trial] leaves it on
    an empty mount point, on a page whose global object holds the engine. *)
Definition scenario_start : Trial := trial true empty_display (scenario 2000).

(** The first [n] firings of an interval of the given period. *)
Definition tick_events (period : Z) (n : nat) : list (Z * Event) :=
  map (fun k => (period * Z.of_nat k, Tick)) (seq 1 n).

(** The key [j] going down [t] ms into the trial. *)
Definition key_j (t : Z) : KeyInfo := mkKeyInfo "j" t.

(** The same trial with the repetition count at the sentinel -1. *)
Definition unbounded : TrialConfig :=
  mkConfig ["a"; "b"; "c"] "j" AllKeys None "Correct." "Wrong."
    100 (-1) false 2000 None true.

Definition unbounded_start : Trial := trial true empty_display unbounded.

(** A whole trial of the scenario: seven firings, the key at 750 ms, the
    firing at 800 ms that arms the timer, the timer at 2800 ms. *)
Definition whole_trial : list (Z * Event) :=
  tick_events 100 7
  ++ [(750, KeyPress (key_j 750)); (800, Tick); (2800, Timeout)].

(** The number of interval events in a list of events. *)
Fixpoint count_ticks (evs : list (Z * Event)) : nat :=
  match evs with
  | [] => 0%nat
  | (_, Tick) :: rest => S (count_ticks rest)
  | _ :: rest => count_ticks rest
  end.

(** The part of the variables the animation consists of. *)
Definition animation_state (x : Vars) : Z * Z * bool :=
  (animate_frame x, reps x, showAnimation x).

(** The markup of one frame in direct-markup mode (lines 158-161). *)
Definition stimulus_markup (src : string) : string :=
  ("<img src=" ++ JS.dq ++ src ++ JS.dq ++ " class=" ++ JS.dq
   ++ "jspsych-categorize-animation-stimulus" ++ JS.dq ++ "></img>")%string.

(** The prompt as markup: nothing for [null]. *)
Definition prompt_markup (cfg : TrialConfig) : string :=
  match prompt cfg with
  | Some p => p
  | None => EmptyString
  end.

(** A trial that has ended: nothing is registered with the host any more and
    the display is empty. *)
Definition ended (w : Trial) : Prop :=
  animate_interval (host w) = None /\
  timeouts (host w) = [] /\
  keyboard_listener (host w) = false /\
  display w = empty_display.

(** What holds of the registrations in every state of a trial. *)
Definition registrations_consistent (w : Trial) : Prop :=
  (responded (vars w) = true -> keyboard_listener (host w) = false) /\
  (timeoutSet (vars w) = false -> timeouts (host w) = []) /\
  (timeouts (host w) <> [] -> responded (vars w) = true) /\
  (finished (host w) = [] -> animate_interval (host w) <> None) /\
  (finished (host w) = [] \/
   (exists r, finished (host w) = [r]) /\ timeoutSet (vars w) = true /\ ended w).

(** A text in which the pattern occurs nowhere. *)
Definition absent (pat s : string) : Prop :=
  forall pre post, s <> (pre ++ pat ++ post)%string.

(** The scenario up to the response at 750 ms. *)
Definition answered_run : list (Z * Event) :=
  tick_events 100 7 ++ [(750, KeyPress (key_j 750))].

(** The scenario with a prompt and responses allowed before the end of the
    animation, in canvas mode and in direct-markup mode. *)
Definition early : TrialConfig :=
  mkConfig ["a"; "b"; "c"] "j" AllKeys None "Correct." "Wrong."
    100 2 true 2000 (Some "<p>Which one?</p>") true.

Definition direct_markup : TrialConfig :=
  mkConfig ["a"; "b"; "c"] "j" AllKeys None "Correct." "Wrong."
    100 2 true 2000 (Some "<p>Which one?</p>") false.

(** A feedback template that names the answer twice. *)
Definition twice_labelled : TrialConfig :=
  mkConfig ["a"; "b"; "c"] "j" AllKeys (Some "cat")
    "Answer: %ANS% (%ANS%)" "Wrong."
    500 1 false 2000 None true.

(** A categorization trial with an answer label in the feedback text. *)
Definition labelled (label : string) : TrialConfig :=
  mkConfig ["a"; "b"; "c"] "j" AllKeys (Some label)
    "Correct! Answer: %ANS%" "Wrong! Answer: %ANS%"
    500 1 false 2000 None true.

End CategorizeAnimation.

(** ** plugin-vsl-grid-scene *)

Module VslGridScene.

(** A cell of the grid: the number 0 (empty) or an image reference. *)
Inductive Cell : Type :=
| Zero
| Src (path : string).

Definition Grid : Type := list (list Cell).

Record TrialConfig : Type := mkConfig {
  stimuli : Grid;
  image_size : list Z;
  trial_duration : Z
}.

(** The [trial_data] object: [{stimulus}]. *)
Record TrialData : Type := mkTrialData {
  stimulus : Grid
}.

(** The mount point, the delays of the pending one-shot timers (each calls
    [endTrial]) and the [finishTrial] calls so far. *)
Record Scene : Type := mkScene {
  innerHTML : string;
  timeouts : list Z;
  finished : list TrialData
}.

(** An integer in decimal, as string concatenation prints it. *)
Definition string_of_Z (z : Z) : string :=
  NilZero.string_of_int (Z.to_int z).

(** [image_size[i]] inside a string concatenation ([undefined] when the array
    is too short). *)
Definition size_px (image_size : list Z) (i : nat) : string :=
  match nth_error image_size i with
  | Some n => string_of_Z n
  | None => "undefined"
  end.

(** [image_size[i] / 10] inside a string concatenation: the quotient, with
    one decimal when the division is not exact. *)
Definition size_tenth (image_size : list Z) (i : nat) : string :=
  match nth_error image_size i with
  | Some n =>
      let a := Z.abs n in
      (if n <? 0 then "-" else EmptyString)
      ++ string_of_Z (a / 10)
      ++ (if a mod 10 =? 0 then EmptyString else "." ++ string_of_Z (a mod 10))
  | None => "NaN"
  end.

Section Markup.

Variable image_size : list Z.

(** The markup of one cell (lines 88-120); [cell] is [pattern[row][col]],
    [None] when the row is too short. *)
Definition cell_html (row col : nat) (cell : option Cell) : string :=
  let r := string_of_Z (Z.of_nat row) in
  let c := string_of_Z (Z.of_nat col) in
  "<td id=" ++ JS.dq ++ "jspsych-vsl-grid-scene-table-" ++ r ++ "-" ++ c
  ++ JS.dq ++ " style=" ++ JS.dq ++ "padding: " ++ size_tenth image_size 1
  ++ "px " ++ size_tenth image_size 0 ++ "px; border: 1px solid #555;"
  ++ JS.dq ++ ">"
  ++ "<div id=" ++ JS.dq ++ "jspsych-vsl-grid-scene-table-cell-" ++ r ++ "-"
  ++ c ++ JS.dq ++ " style=" ++ JS.dq ++ "width: " ++ size_px image_size 0
  ++ "px; height: " ++ size_px image_size 1 ++ "px;" ++ JS.dq ++ ">"
  ++ (match cell with
      | Some Zero => EmptyString
      | other =>
          "<img src=" ++ JS.dq
          ++ (match other with Some (Src p) => p | _ => "undefined" end)
          ++ JS.dq ++ " style=" ++ JS.dq ++ "width: " ++ size_px image_size 0
          ++ "px; height: " ++ size_px image_size 1 ++ JS.dq ++ "></img>"
      end)
  ++ "</div>" ++ "</td>".

(** The inner loop: columns [col .. col + n - 1] of one row. *)
Fixpoint cols_html (n : nat) (row col : nat) (cells : list Cell) : string :=
  match n with
  | O => EmptyString
  | S n' =>
      cell_html row col (nth_error cells col)
      ++ cols_html n' row (S col) cells
  end.

(** The outer loop: the rows from index [row] on. *)
Fixpoint rows_html (ncols : nat) (row : nat) (rows : Grid) : string :=
  match rows with
  | [] => EmptyString
  | cells :: rest =>
      "<tr id=" ++ JS.dq ++ "jspsych-vsl-grid-scene-table-row-"
      ++ string_of_Z (Z.of_nat row) ++ JS.dq ++ " css=" ++ JS.dq ++ "height: "
      ++ size_px image_size 1 ++ "px;" ++ JS.dq ++ ">"
      ++ cols_html ncols row 0 cells
      ++ "</tr>"
      ++ rows_html ncols (S row) rest
  end.

(** [generate_stimulus(pattern, image_size)] (lines 67-129).  Reading
    [pattern[0].length] of a grid without rows throws: [None]. *)
Definition generate_stimulus (pattern : Grid) : option string :=
  match pattern with
  | [] => None
  | row0 :: _ =>
      Some
        ("<div id=" ++ JS.dq ++ "jspsych-vsl-grid-scene-dummy" ++ JS.dq
         ++ " css=" ++ JS.dq ++ "display: none;" ++ JS.dq ++ ">"
         ++ "<table id=" ++ JS.dq ++ "jspsych-vsl-grid-scene table" ++ JS.dq
         ++ " style=" ++ JS.dq
         ++ "border-collapse: collapse; margin-left: auto; margin-right: auto;"
         ++ JS.dq ++ ">"
         ++ rows_html (List.length row0) 0 pattern
         ++ "</table>" ++ "</div>")
  end.

End Markup.

(** [endTrial] (lines 56-64). *)
Definition endTrial (trial : TrialConfig) (s : Scene) : Scene :=
  mkScene EmptyString (timeouts s)
    (finished s ++ [mkTrialData (stimuli trial)]).

(** [trial(display_element, trial)] (lines 49-54): the state when it
    returns, or [None] when [generate_stimulus] throws (nothing is mounted
    or scheduled then). *)
Definition trial (display_element : Scene) (trial : TrialConfig)
  : option Scene :=
  match generate_stimulus (image_size trial) (stimuli trial) with
  | Some html =>
      Some (mkScene html
              (timeouts display_element ++ [trial_duration trial])
              (finished display_element))
  | None => None
  end.

(** The host fires the oldest pending one-shot timer, which calls
    [endTrial]. *)
Definition fire_timeout (trial : TrialConfig) (s : Scene) : Scene :=
  match timeouts s with
  | _ :: rest => endTrial trial (mkScene (innerHTML s) rest (finished s))
  | [] => s
  end.

(** A mount point with arbitrary previous content and nothing scheduled. *)
Definition mount (previous : string) : Scene := mkScene previous [] [].

(** A row cut or filled up to [n] cells; a missing cell reads as [undefined],
    which the markup shows as an image of that name. *)
Definition fit (n : nat) (cells : list Cell) : list Cell :=
  firstn n (cells ++ repeat (Src "undefined") n).

(** The grid with every row fitted to the length of the first row. *)
Definition rectangular (pattern : Grid) : Grid :=
  match pattern with
  | [] => []
  | row0 :: _ => map (fit (List.length row0)) pattern
  end.

(** A two by two scene with one empty cell, and a scene without rows. *)
Definition sample_scene : TrialConfig :=
  mkConfig [[Src "a.png"; Zero]; [Src "b.png"; Src "c.png"]] [100; 100] 2000.

Definition empty_scene : TrialConfig := mkConfig [] [100; 100] 2000.

End VslGridScene.

(** * Properties *)

(** ** Facts about the string primitives *)

Module JSFacts.
Import JS.

Lemma strip_prefix_app (p r : string) : strip_prefix p (p ++ r) = Some r.
Proof.
  induction p as [|a p IH]; simpl; [reflexivity|].
  now rewrite Ascii.eqb_refl.
Qed.

Lemma strip_prefix_sound (p s r : string) :
  strip_prefix p s = Some r -> s = p ++ r.
Proof.
  revert s; induction p as [|a p IH]; intros s H; simpl in *.
  - now inversion H.
  - destruct s as [|b s]; [discriminate|].
    destruct (Ascii.eqb a b) eqn:E; [|discriminate].
    apply Ascii.eqb_eq in E; subst b.
    now rewrite (IH _ H).
Qed.

(** [split_first] cuts the text at an occurrence of the pattern... *)
Lemma split_first_sound (pat s pre post : string) :
  split_first pat s = Some (pre, post) -> s = pre ++ pat ++ post.
Proof.
  revert pre post; induction s as [|c s IH]; intros pre post H; simpl in H.
  - destruct (strip_prefix pat EmptyString) eqn:E; [|discriminate].
    inversion H; subst. now apply strip_prefix_sound in E.
  - destruct (strip_prefix pat (String c s)) eqn:E.
    + inversion H; subst. now apply strip_prefix_sound in E.
    + destruct (split_first pat s) as [[pre' post']|] eqn:F; [|discriminate].
      inversion H; subst. simpl. now rewrite (IH _ _ eq_refl).
Qed.

(** ... and finds one whenever the pattern occurs. *)
Lemma split_first_complete (pat s : string) :
  split_first pat s = None -> forall pre post, s <> pre ++ pat ++ post.
Proof.
  induction s as [|c s IH]; intros H pre post Heq; simpl in H.
  - destruct (strip_prefix pat EmptyString) eqn:E; [discriminate|].
    destruct pre; [|discriminate]. simpl in Heq.
    rewrite Heq, strip_prefix_app in E. discriminate.
  - destruct (strip_prefix pat (String c s)) eqn:E; [discriminate|].
    destruct (split_first pat s) as [[pre' post']|] eqn:F; [discriminate|].
    destruct pre as [|c' pre]; simpl in Heq.
    + rewrite Heq, strip_prefix_app in E. discriminate.
    + inversion Heq; subst. now apply (IH eq_refl pre post).
Qed.

Lemma get_substitution_dollar_free (matched pre post repl : string) :
  dollar_free repl = true -> get_substitution matched pre post repl = repl.
Proof.
  induction repl as [|c tl IH]; simpl; [reflexivity|].
  intros H. apply andb_true_iff in H as [Hc Htl].
  apply negb_true_iff in Hc. rewrite Hc. now rewrite IH.
Qed.

(** A text without the pattern is left as it is. *)
Lemma replace_no_token (pat repl s : string) :
  split_first pat s = None -> replace pat repl s = s.
Proof. unfold replace. now intros ->. Qed.

(** A replacement text without dollar signs is inserted as it is, in place of
    the first occurrence of the pattern. *)
Lemma replace_plain (pat repl s pre post : string) :
  split_first pat s = Some (pre, post) ->
  dollar_free repl = true ->
  replace pat repl s = pre ++ repl ++ post.
Proof.
  unfold replace. intros -> H. now rewrite get_substitution_dollar_free.
Qed.

End JSFacts.

(** ** The animation trial controller *)

Module AnimationProofs.
Import CategorizeAnimation.
#[local] Open Scope list_scope.

(** Conjunctions of closed facts, each settled by evaluation. *)
Ltac split_conj := repeat match goal with |- _ /\ _ => split end.
Ltac by_evaluation :=
  repeat match goal with
         | |- _ /\ _ => split; [vm_compute; reflexivity|]
         end;
  vm_compute; reflexivity.

(** [tick_vars] at a given record of variables, with the tests left folded. *)
Ltac tick_step :=
  unfold tick_vars;
  cbn [animate_frame reps showAnimation responded timeoutSet correct trial_data].

Section Controller.

Variable compareKeys : string -> string -> bool.
Variable cfg : TrialConfig.
Variable page : bool.

#[local] Abbreviation L := (Z.of_nat (List.length (stimuli cfg))).
#[local] Abbreviation R := (sequence_reps cfg).

(** *** What each callback does to each part of the state *)

Lemma vars_clear_direct_markup (w : Trial) :
  vars (clear_direct_markup cfg w) = vars w.
Proof. unfold clear_direct_markup. now destruct (render_on_canvas cfg). Qed.

Lemma host_clear_direct_markup (w : Trial) :
  host (clear_direct_markup cfg w) = host w.
Proof. unfold clear_direct_markup. now destruct (render_on_canvas cfg). Qed.

Lemma vars_next_frame (w : Trial) :
  vars (next_frame cfg w) =
  let x := vars w in
  let f := animate_frame x + 1 in
  let wrap := f =? L in
  let r := if wrap then reps x + 1 else reps x in
  mkVars (if wrap then 0 else f) r
    (if wrap && negb (R =? -1) && (R <=? r) then false else showAnimation x)
    (responded x) (timeoutSet x) (correct x) (trial_data x).
Proof.
  destruct w as [[f r s rs ts c td] d h]. unfold next_frame; simpl.
  destruct (f + 1 =? L); simpl; [|reflexivity].
  now destruct (negb (R =? -1) && (R <=? r + 1)).
Qed.

Lemma host_next_frame (w : Trial) : host (next_frame cfg w) = host w.
Proof.
  destruct w as [[f r s rs ts c td] d h]. unfold next_frame; simpl.
  destruct (f + 1 =? L); simpl; [|reflexivity].
  now destruct (negb (R =? -1) && (R <=? r + 1)).
Qed.

Lemma display_next_frame (w : Trial) : display (next_frame cfg w) = display w.
Proof.
  destruct w as [[f r s rs ts c td] d h]. unfold next_frame; simpl.
  destruct (f + 1 =? L); simpl; [|reflexivity].
  now destruct (negb (R =? -1) && (R <=? r + 1)).
Qed.

Lemma vars_show_frame (w : Trial) : vars (show_frame cfg w) = vars w.
Proof.
  unfold show_frame.
  now destruct (showAnimation (vars w)), (render_on_canvas cfg).
Qed.

Lemma host_show_frame (w : Trial) : host (show_frame cfg w) = host w.
Proof.
  unfold show_frame.
  now destruct (showAnimation (vars w)), (render_on_canvas cfg).
Qed.

Lemma vars_reveal_prompt (w : Trial) : vars (reveal_prompt cfg w) = vars w.
Proof.
  unfold reveal_prompt. now destruct (prompt cfg), (render_on_canvas cfg).
Qed.

Lemma host_reveal_prompt (w : Trial) : host (reveal_prompt cfg w) = host w.
Proof.
  unfold reveal_prompt. now destruct (prompt cfg), (render_on_canvas cfg).
Qed.

Lemma vars_show_feedback (w : Trial) : vars (show_feedback cfg w) = vars w.
Proof.
  unfold show_feedback. now destruct (render_on_canvas cfg), (prompt cfg).
Qed.

Lemma host_show_feedback (w : Trial) : host (show_feedback cfg w) = host w.
Proof.
  unfold show_feedback. now destruct (render_on_canvas cfg), (prompt cfg).
Qed.

Lemma vars_prompt_or_feedback (w : Trial) :
  vars (prompt_or_feedback cfg w) =
  let x := vars w in
  mkVars (animate_frame x) (reps x) (showAnimation x) (responded x)
    (responded x || timeoutSet x) (correct x) (trial_data x).
Proof.
  destruct w as [[f r s rs ts c td] d [n ai kl to tc fi g u]].
  unfold prompt_or_feedback, arm_end_of_trial, show_feedback, reveal_prompt;
    simpl.
  destruct rs, ts, s, (allow_response_before_complete cfg),
    (render_on_canvas cfg), (prompt cfg), g; reflexivity.
Qed.

Lemma host_prompt_or_feedback (w : Trial) :
  host (prompt_or_feedback cfg w) =
  if responded (vars w) && negb (timeoutSet (vars w))
  then
    if global_jsPsych (host w)
    then host (host_setTimeout (feedback_duration cfg) w)
    else host (host_uncaught w)
  else host w.
Proof.
  destruct w as [[f r s rs ts c td] d [n ai kl to tc fi g u]].
  unfold prompt_or_feedback, arm_end_of_trial, show_feedback, reveal_prompt;
    simpl.
  destruct rs, ts, s, (allow_response_before_complete cfg),
    (render_on_canvas cfg), (prompt cfg), g; reflexivity.
Qed.

Lemma vars_animate_tick (w : Trial) :
  vars (animate_tick cfg w) = tick_vars cfg (vars w).
Proof.
  unfold animate_tick.
  rewrite vars_prompt_or_feedback, vars_show_frame, vars_next_frame,
    vars_clear_direct_markup.
  reflexivity.
Qed.

Lemma host_animate_tick (w : Trial) :
  host (animate_tick cfg w) =
  if responded (vars w) && negb (timeoutSet (vars w))
  then
    if global_jsPsych (host w)
    then host (host_setTimeout (feedback_duration cfg) w)
    else host (host_uncaught w)
  else host w.
Proof.
  unfold animate_tick.
  rewrite host_prompt_or_feedback, vars_show_frame, vars_next_frame,
    vars_clear_direct_markup; simpl.
  destruct (responded (vars w) && negb (timeoutSet (vars w)));
    [|now rewrite host_show_frame, host_next_frame, host_clear_direct_markup].
  rewrite host_show_frame, host_next_frame, host_clear_direct_markup.
  reflexivity.
Qed.

(** No callback writes the global object of the page. *)
Lemma global_animate_tick (w : Trial) :
  global_jsPsych (host (animate_tick cfg w)) = global_jsPsych (host w).
Proof.
  rewrite host_animate_tick.
  destruct (responded (vars w) && negb (timeoutSet (vars w))); [|reflexivity].
  destruct (global_jsPsych (host w)) eqn:E; cbn; exact E.
Qed.

Lemma vars_endTrial (w : Trial) : vars (endTrial w) = vars w.
Proof. reflexivity. Qed.

Lemma vars_after_response (info : KeyInfo) (w : Trial) :
  vars (after_response compareKeys cfg info w) =
  if negb (allow_response_before_complete cfg) && showAnimation (vars w)
  then vars w
  else mkVars (animate_frame (vars w)) (reps (vars w)) (showAnimation (vars w))
         true (timeoutSet (vars w))
         (Some (compareKeys (key_answer cfg) (key info)))
         (Some (result_record compareKeys cfg info)).
Proof.
  unfold result_record, after_response.
  destruct (negb (allow_response_before_complete cfg) && showAnimation (vars w));
    [reflexivity|].
  destruct (compareKeys (key_answer cfg) (key info)); reflexivity.
Qed.

Lemma host_after_response (info : KeyInfo) (w : Trial) :
  host (after_response compareKeys cfg info w) =
  if negb (allow_response_before_complete cfg) && showAnimation (vars w)
  then host w
  else host (host_cancelKeyboardResponse w).
Proof.
  unfold after_response.
  destruct (negb (allow_response_before_complete cfg) && showAnimation (vars w));
    [reflexivity|].
  destruct (compareKeys (key_answer cfg) (key info)); reflexivity.
Qed.

Lemma vars_deliver (t : Z) (e : Event) (w : Trial) :
  vars (deliver compareKeys cfg (t, e) w) =
  match e with
  | Tick =>
      match animate_interval (host w) with
      | Some _ => tick_vars cfg (vars w)
      | None => vars w
      end
  | KeyPress info =>
      if keyboard_listener (host w) && valid_response compareKeys cfg (key info)
      then vars (after_response compareKeys cfg info w)
      else vars w
  | Timeout => vars w
  end.
Proof.
  destruct e as [|info|]; simpl.
  - destruct (animate_interval (host w)); [|reflexivity].
    change (vars (animate_tick cfg (set_now t w)) = tick_vars cfg (vars w)).
    now rewrite vars_animate_tick.
  - destruct (keyboard_listener (host w) && _); [|reflexivity].
    now rewrite !vars_after_response.
  - destruct (timeouts (host w)); reflexivity.
Qed.

Lemma run_app (evs1 evs2 : list (Z * Event)) (w : Trial) :
  run compareKeys cfg (evs1 ++ evs2) w =
  run compareKeys cfg evs2 (run compareKeys cfg evs1 w).
Proof. apply fold_left_app. Qed.

Lemma run_single (te : Z * Event) (w : Trial) :
  run compareKeys cfg [te] w = deliver compareKeys cfg te w.
Proof. reflexivity. Qed.

Lemma run_snoc (evs : list (Z * Event)) (te : Z * Event) (w : Trial) :
  run compareKeys cfg (evs ++ [te]) w =
  deliver compareKeys cfg te (run compareKeys cfg evs w).
Proof. now rewrite run_app. Qed.

(** Induction over the reachable states of a trial: a property of the
    initial state that every delivered event preserves holds after every
    run. *)
Lemma run_invariant (P : Trial -> Prop) (w0 : Trial) :
  P w0 ->
  (forall te w, P w -> P (deliver compareKeys cfg te w)) ->
  forall evs, P (run compareKeys cfg evs w0).
Proof.
  intros H0 Hstep evs.
  induction evs as [|te evs IH] using rev_ind; [exact H0|].
  rewrite run_snoc. now apply Hstep.
Qed.

Lemma ticks_succ_r (n : nat) (w : Trial) :
  ticks cfg (S n) w = ticks cfg n (animate_tick cfg w).
Proof. unfold ticks. now rewrite Nat.iter_succ_r. Qed.

Lemma vars_ticks_S (n : nat) (w : Trial) :
  vars (ticks cfg (S n) w) = tick_vars cfg (vars (ticks cfg n w)).
Proof. unfold ticks; simpl. apply vars_animate_tick. Qed.

Lemma host_tick_event (t : Z) (w : Trial) :
  animate_interval (host w) <> None ->
  host (deliver compareKeys cfg (t, Tick) w) =
  let h := host w in
  let reached := responded (vars w) && negb (timeoutSet (vars w)) in
  let arm := reached && global_jsPsych h in
  mkHost t (Some (t + Z.max 0 (frame_time cfg))) (keyboard_listener h)
    (if arm then timeouts h ++ [t + Z.max 0 (feedback_duration cfg)]
     else timeouts h)
    (if arm then timeout_calls h ++ [feedback_duration cfg]
     else timeout_calls h)
    (finished h)
    (global_jsPsych h)
    (if reached && negb (global_jsPsych h) then S (uncaught h) else uncaught h).
Proof.
  intros Hi. cbn [deliver].
  destruct (animate_interval (host w)) as [i|] eqn:Ei; [|congruence].
  unfold reschedule_interval, set_host; cbn [host].
  rewrite host_animate_tick.
  change (vars (set_now t w)) with (vars w).
  change (global_jsPsych (host (set_now t w))) with (global_jsPsych (host w)).
  destruct (responded (vars w) && negb (timeoutSet (vars w)));
    [destruct (global_jsPsych (host w)) eqn:Eg|];
    cbn; now rewrite Ei, ?Eg.
Qed.

Lemma host_key_event (t : Z) (info : KeyInfo) (w : Trial) :
  host (deliver compareKeys cfg (t, KeyPress info) w) =
  let h := host w in
  if keyboard_listener h && valid_response compareKeys cfg (key info) then
    mkHost t (animate_interval h)
      (negb (allow_response_before_complete cfg) && showAnimation (vars w)
       && keyboard_listener h)
      (timeouts h) (timeout_calls h) (finished h) (global_jsPsych h)
      (uncaught h)
  else h.
Proof.
  cbn [deliver].
  destruct (keyboard_listener (host w)) eqn:El; [|reflexivity].
  destruct (valid_response compareKeys cfg (key info)); [|reflexivity].
  cbn [andb]. rewrite host_after_response.
  change (vars (set_now t w)) with (vars w).
  destruct (negb (allow_response_before_complete cfg) && showAnimation (vars w));
    cbn; now rewrite ?El.
Qed.

Lemma host_timeout_event (t : Z) (w : Trial) :
  timeouts (host w) <> [] ->
  host (deliver compareKeys cfg (t, Timeout) w) =
  let h := host w in
  mkHost t None (keyboard_listener h) [] (timeout_calls h)
    (finished h ++ [(t, trial_data (vars w))]) (global_jsPsych h) (uncaught h).
Proof.
  intros Ht. cbn [deliver].
  destruct (timeouts (host w)) eqn:E; [congruence|]. reflexivity.
Qed.

(** *** The length of the animation *)

(** Without a response, the [n]-th firing ([1 <= n <= L * R]) leaves the
    animation running, on frame [(n - 1) mod L] of repetition
    [(n - 1) / L]. *)
Lemma vars_while_animating (d : Display) (n : nat) :
  1 <= L -> 1 <= R -> Z.of_nat (S n) <= L * R ->
  exists q r,
    Z.of_nat n = q * L + r /\ 0 <= r < L /\ 0 <= q /\
    vars (ticks cfg (S n) (trial page d cfg)) = mkVars r q true false false None None.
Proof.
  intros HL HR. induction n as [|n IH]; intros Hn.
  - exists 0, 0. repeat split; try lia.
    rewrite vars_ticks_S. change (vars (ticks cfg 0 (trial page d cfg)))
      with (mkVars (-1) 0 true false false None None).
    tick_step. change (-1 + 1) with 0.
    destruct (0 =? L) eqn:E; [lia|]. reflexivity.
  - destruct IH as (q & r & Hqr & Hr & Hq & Hv); [lia|].
    rewrite vars_ticks_S, Hv. tick_step.
    destruct (r + 1 =? L) eqn:E; cbn [andb].
    + exists (q + 1), 0. repeat split; try lia.
      assert (Hlt : q + 1 < R) by nia.
      destruct (R =? -1) eqn:E1; [lia|].
      destruct (R <=? q + 1) eqn:E2; [lia|]. reflexivity.
    + exists q, (r + 1). repeat split; try lia.
Qed.

Lemma animating_through_LR (d : Display) (n : nat) :
  1 <= L -> 1 <= R -> Z.of_nat n <= L * R ->
  showAnimation (vars (ticks cfg n (trial page d cfg))) = true.
Proof.
  intros HL HR Hn. destruct n as [|n]; [reflexivity|].
  destruct (vars_while_animating d n HL HR Hn) as (q & r & _ & _ & _ & Hv).
  now rewrite Hv.
Qed.

Lemma stopped_at_LR_plus_1 (d : Display) (n : nat) :
  1 <= L -> 1 <= R -> Z.of_nat n = L * R ->
  showAnimation (vars (ticks cfg (S n) (trial page d cfg))) = false.
Proof.
  intros HL HR Hn. destruct n as [|n]; [nia|].
  destruct (vars_while_animating d n HL HR) as (q & r & Hqr & Hr & Hq & Hv);
    [lia|].
  rewrite vars_ticks_S, Hv. tick_step.
  assert (Hsum : q * L + r + 1 = L * R) by lia.
  assert (Hlo : q < R) by nia.
  assert (Hhi : R < q + 2) by nia.
  assert (q = R - 1) as -> by lia.
  assert (r = L - 1) as -> by nia.
  replace (L - 1 + 1 =? L) with true by lia.
  replace (R - 1 + 1) with R by lia.
  destruct (R =? -1) eqn:E1; [lia|].
  destruct (R <=? R) eqn:E2; [|lia]. reflexivity.
Qed.

(** Counting firings up to the one that stops the animation. *)
Lemma advances_until_stop_count (m : nat) :
  forall (fuel : nat) (w : Trial),
    (forall k, (1 <= k <= m)%nat -> showAnimation (vars (ticks cfg k w)) = true) ->
    showAnimation (vars (ticks cfg (S m) w)) = false ->
    (m < fuel)%nat ->
    advances_until_stop cfg fuel w = Some (S m).
Proof.
  induction m as [|m IH]; intros fuel w Hrun Hstop Hfuel;
    (destruct fuel as [|fuel]; [lia|]); simpl.
  - change (animate_tick cfg w) with (ticks cfg 1 w). now rewrite Hstop.
  - change (animate_tick cfg w) with (ticks cfg 1 w).
    rewrite (Hrun 1%nat) by lia.
    rewrite (IH fuel (ticks cfg 1 w)); [reflexivity| | |lia].
    + intros k Hk. change (ticks cfg 1 w) with (animate_tick cfg w).
      rewrite <- ticks_succ_r. apply Hrun. lia.
    + change (ticks cfg 1 w) with (animate_tick cfg w).
      now rewrite <- ticks_succ_r.
Qed.

(** C1 (amended).  For a stimulus sequence of length L >= 1 and a finite
    repetition target R >= 1, [showAnimation] is still true after each of
    the first L * R firings of the interval callback, which show frame
    (n - 1) mod L on firing n, and it is false after firing L * R + 1: the
    callback increments the frame index L * R + 1 times before the flag is
    false, the last increment being the wrap-around that detects the end. *)
Theorem animation_stops_on_firing_LR_plus_1 (d : Display) (N : nat) :
  1 <= L -> 1 <= R -> Z.of_nat N = L * R ->
  (forall n, (n <= N)%nat ->
     showAnimation (vars (ticks cfg n (trial page d cfg))) = true) /\
  (forall n, (1 <= n <= N)%nat ->
     animate_frame (vars (ticks cfg n (trial page d cfg))) = (Z.of_nat n - 1) mod L) /\
  showAnimation (vars (ticks cfg (S N) (trial page d cfg))) = false /\
  (forall fuel, (N < fuel)%nat ->
     advances_until_stop cfg fuel (trial page d cfg) = Some (S N)).
Proof.
  intros HL HR HN.
  assert (Hrun : forall n, (n <= N)%nat ->
            showAnimation (vars (ticks cfg n (trial page d cfg))) = true)
    by (intros n Hn; apply animating_through_LR; lia).
  assert (Hstop : showAnimation (vars (ticks cfg (S N) (trial page d cfg))) = false)
    by (now apply stopped_at_LR_plus_1).
  repeat split; trivial.
  - intros n [H1 Hn]. destruct n as [|n]; [lia|].
    destruct (vars_while_animating d n HL HR) as (q & r & Hqr & Hr & _ & Hv);
      [lia|].
    rewrite Hv; simpl animate_frame.
    apply Z.mod_unique with q; lia.
  - intros fuel Hfuel. apply advances_until_stop_count; trivial.
    intros k Hk. apply Hrun. lia.
Qed.

(** *** Responses that are not accepted *)

(** C4.  A key event delivered while [showAnimation] is true and
    [allow_response_before_complete] is false leaves the whole trial state
    as it was: [responded], [correct], the result record and the
    registration of the keyboard listener are unchanged. *)
Theorem ignored_response_changes_nothing (info : KeyInfo) (w : Trial) :
  allow_response_before_complete cfg = false ->
  showAnimation (vars w) = true ->
  after_response compareKeys cfg info w = w /\
  responded (vars (after_response compareKeys cfg info w)) = responded (vars w) /\
  correct (vars (after_response compareKeys cfg info w)) = correct (vars w) /\
  trial_data (vars (after_response compareKeys cfg info w)) = trial_data (vars w) /\
  keyboard_listener (host (after_response compareKeys cfg info w)) =
    keyboard_listener (host w).
Proof.
  intros Hallow Hshow.
  assert (E : after_response compareKeys cfg info w = w)
    by (unfold after_response; now rewrite Hallow, Hshow).
  rewrite E. repeat split.
Qed.

(** *** The unbounded animation *)

Lemma tick_vars_unbounded (x : Vars) :
  R = -1 -> showAnimation (tick_vars cfg x) = showAnimation x.
Proof.
  intros HR. tick_step. rewrite HR.
  change (negb (-1 =? -1)) with false.
  now rewrite andb_false_r.
Qed.

(** C5.  With [sequence_reps] at the sentinel -1, a firing of the interval
    callback never changes [showAnimation], and the flag is true after every
    run of the trial, however many ticks it contains. *)
Theorem unbounded_animation_never_stops :
  R = -1 ->
  (forall w, showAnimation (vars (animate_tick cfg w)) = showAnimation (vars w)) /\
  (forall d n, showAnimation (vars (ticks cfg n (trial page d cfg))) = true) /\
  (forall d evs,
     showAnimation (vars (run compareKeys cfg evs (trial page d cfg))) = true).
Proof.
  intros HR.
  assert (Hstep : forall w,
            showAnimation (vars (animate_tick cfg w)) = showAnimation (vars w))
    by (intros w; rewrite vars_animate_tick; now apply tick_vars_unbounded).
  repeat split; trivial.
  - intros d n. induction n as [|n IH]; [reflexivity|].
    unfold ticks in *; simpl. now rewrite Hstep.
  - intros d evs.
    apply (run_invariant (fun w => showAnimation (vars w) = true));
      [reflexivity|].
    intros [t e] w Hw. rewrite vars_deliver.
    destruct e as [|info|]; trivial.
    + destruct (animate_interval (host w)); trivial.
      now rewrite tick_vars_unbounded.
    + destruct (keyboard_listener (host w) && _); trivial.
      rewrite vars_after_response.
      now destruct (negb (allow_response_before_complete cfg) && _).
Qed.

(** *** The range of the frame index *)

Lemma frame_after_response (info : KeyInfo) (w : Trial) :
  animate_frame (vars (after_response compareKeys cfg info w)) =
  animate_frame (vars w).
Proof.
  rewrite vars_after_response.
  now destruct (negb (allow_response_before_complete cfg) && _).
Qed.

Lemma timers_after_response (info : KeyInfo) (w : Trial) :
  animate_interval (host (after_response compareKeys cfg info w)) =
    animate_interval (host w) /\
  timeouts (host (after_response compareKeys cfg info w)) = timeouts (host w).
Proof.
  rewrite host_after_response.
  now destruct (negb (allow_response_before_complete cfg) && _).
Qed.

(** Once a tick has fired, the frame index stays in [0, L). *)
Lemma frame_in_range_step (te : Z * Event) (w : Trial) :
  1 <= L ->
  0 <= animate_frame (vars w) < L ->
  0 <= animate_frame (vars (deliver compareKeys cfg te w)) < L.
Proof.
  intros HL Hw. destruct te as [t e]. rewrite vars_deliver.
  destruct e as [|info|]; trivial.
  - destruct (animate_interval (host w)); trivial.
    tick_step.
    destruct (animate_frame (vars w) + 1 =? L) eqn:E; lia.
  - destruct (keyboard_listener (host w) && _); trivial.
    now rewrite frame_after_response.
Qed.

Lemma first_tick_or_in_range (d : Display) (evs : list (Z * Event)) :
  1 <= L ->
  let w := run compareKeys cfg evs (trial page d cfg) in
  before_first_tick w \/ 0 <= animate_frame (vars w) < L.
Proof.
  intros HL.
  apply (run_invariant
           (fun w => before_first_tick w \/ 0 <= animate_frame (vars w) < L)).
  - left. repeat split. simpl. discriminate.
  - intros te w [(Hf & Hi & Ht)|Hr]; [|right; now apply frame_in_range_step].
    destruct te as [t [|info|]].
    + right. rewrite vars_deliver.
      destruct (animate_interval (host w)); [|congruence].
      tick_step. rewrite Hf. change (-1 + 1) with 0.
      destruct (0 =? L) eqn:E; lia.
    + left. unfold before_first_tick. simpl.
      destruct (keyboard_listener (host w) && _); [|now repeat split].
      rewrite frame_after_response.
      destruct (timers_after_response info (set_now t w)) as [-> ->].
      now repeat split.
    + left. simpl. rewrite Ht. now repeat split.
Qed.

(** C8 (amended).  For a stimulus sequence of length L >= 1, at every point
    of a trial that follows the first firing of the interval callback and at
    which [showAnimation] is true, the frame index lies in [0, L). *)
Theorem frame_index_in_range_after_first_tick
    (d : Display) (evs1 evs2 : list (Z * Event)) (t : Z) :
  1 <= L ->
  showAnimation
    (vars (run compareKeys cfg (evs1 ++ (t, Tick) :: evs2) (trial page d cfg)))
  = true ->
  0 <= animate_frame
         (vars (run compareKeys cfg (evs1 ++ (t, Tick) :: evs2) (trial page d cfg)))
    < L.
Proof.
  intros HL _. rewrite run_app.
  change ((t, Tick) :: evs2) with ([(t, Tick)] ++ evs2)%list.
  rewrite run_app.
  apply (run_invariant (fun w => 0 <= animate_frame (vars w) < L));
    [|intros te w0 H0; now apply frame_in_range_step].
  rewrite run_single.
  destruct (first_tick_or_in_range d evs1 HL) as [(Hf & Hi & Ht)|Hr].
  - rewrite vars_deliver.
    destruct (animate_interval (host _)); [|congruence].
    tick_step. rewrite Hf. change (-1 + 1) with 0.
    destruct (0 =? L) eqn:E; lia.
  - now apply (frame_in_range_step (t, Tick)).
Qed.

(** *** The end-of-trial timer *)

Lemma timeoutSet_deliver (t : Z) (e : Event) (w : Trial) :
  timeoutSet (vars (deliver compareKeys cfg (t, e) w)) =
  match e with
  | Tick =>
      match animate_interval (host w) with
      | Some _ => responded (vars w) || timeoutSet (vars w)
      | None => timeoutSet (vars w)
      end
  | _ => timeoutSet (vars w)
  end.
Proof.
  rewrite vars_deliver. destruct e as [|info|]; trivial.
  - now destruct (animate_interval (host w)).
  - destruct (keyboard_listener (host w) && _); trivial.
    rewrite vars_after_response.
    now destruct (negb (allow_response_before_complete cfg) && _).
Qed.

Lemma timeout_calls_deliver (t : Z) (e : Event) (w : Trial) :
  timeout_calls (host (deliver compareKeys cfg (t, e) w)) =
  match e with
  | Tick =>
      match animate_interval (host w) with
      | Some _ =>
          if responded (vars w) && negb (timeoutSet (vars w))
             && global_jsPsych (host w)
          then timeout_calls (host w) ++ [feedback_duration cfg]
          else timeout_calls (host w)
      | None => timeout_calls (host w)
      end
  | _ => timeout_calls (host w)
  end.
Proof.
  destruct e as [|info|].
  - destruct (animate_interval (host w)) eqn:Ei.
    + rewrite host_tick_event by congruence. reflexivity.
    + cbn [deliver]. now rewrite Ei.
  - rewrite host_key_event. cbv zeta.
    now destruct (keyboard_listener (host w) && _).
  - destruct (timeouts (host w)) eqn:Et.
    + cbn [deliver]. now rewrite Et.
    + rewrite host_timeout_event by congruence. reflexivity.
Qed.

(** The guard and the calls it lets through. *)
Lemma timer_guard_invariant (d : Display) (evs : list (Z * Event)) :
  let w := run compareKeys cfg evs (trial page d cfg) in
  (timeoutSet (vars w) = false -> timeout_calls (host w) = []) /\
  (List.length (timeout_calls (host w)) <= 1)%nat.
Proof.
  apply (run_invariant
           (fun w => (timeoutSet (vars w) = false -> timeout_calls (host w) = []) /\
                     (List.length (timeout_calls (host w)) <= 1)%nat)).
  - split; [reflexivity|]. simpl. lia.
  - intros [t e] w [Hguard Hlen].
    rewrite timeoutSet_deliver, timeout_calls_deliver.
    destruct e as [|info|]; [|now split|now split].
    destruct (animate_interval (host w)); [|now split].
    destruct (responded (vars w)), (timeoutSet (vars w)),
      (global_jsPsych (host w)); cbn;
      try (split; [discriminate || assumption | assumption]).
    rewrite (Hguard eq_refl). split; [discriminate|]. simpl. lia.
Qed.

(** C3.  In every run of a trial the one-shot end-of-trial timer is armed at
    most once, however many times the interval callback fires after
    [responded] is set. *)
Theorem end_timer_armed_at_most_once (d : Display) (evs : list (Z * Event)) :
  (List.length
     (timeout_calls (host (run compareKeys cfg evs (trial page d cfg)))) <= 1)%nat.
Proof. apply (timer_guard_invariant d evs). Qed.

(** *** The result record *)

Lemma result_invariant (d : Display) (evs : list (Z * Event)) :
  result_recorded compareKeys cfg (run compareKeys cfg evs (trial page d cfg)).
Proof.
  apply (run_invariant (result_recorded compareKeys cfg)); unfold result_recorded.
  - split; [discriminate|].
    split; [intros H; now elim H|].
    split; [intros H; now elim H|].
    split; [intros H; now elim H|].
    intros t data [].
  - intros [t e] w (Hdata & Hcalls & Hpending & Hdone & Hres).
    destruct e as [|info|].
    + destruct (animate_interval (host w)) eqn:Ei;
        [|cbn [deliver]; rewrite Ei; tauto].
      rewrite vars_deliver, Ei, host_tick_event by congruence.
      unfold tick_vars; cbn [responded trial_data timeout_calls timeouts finished].
      split; [assumption|].
      destruct (responded (vars w)); [tauto|].
      cbn [andb]. tauto.
    + rewrite vars_deliver, host_key_event. cbv zeta.
      destruct (keyboard_listener (host w) && _); [|tauto].
      rewrite vars_after_response.
      destruct (negb (allow_response_before_complete cfg) && _);
        cbn [responded trial_data timeout_calls timeouts finished]; [tauto|].
      split; [intros _; now exists info|]. tauto.
    + destruct (timeouts (host w)) eqn:Et;
        [cbn [deliver]; rewrite Et; tauto|].
      assert (Hr : responded (vars w) = true) by (apply Hpending; congruence).
      rewrite vars_deliver, host_timeout_event by congruence.
      cbn [timeout_calls timeouts finished].
      split; [assumption|]. split; [intros _; assumption|].
      split; [intros _; assumption|].
      split; [intros _; assumption|].
      intros t' data Hin. apply in_app_or in Hin as [Hin|[Hin|[]]].
      * now apply (Hres t').
      * inversion Hin; subst. now apply Hdata.
Qed.

(** C10.  A trial ends only after a qualifying response was recorded: the
    end-of-trial timer, the only caller of [endTrial], is armed only once
    [responded] is true, and every result the host's [finishTrial] receives
    is the record of a key event (stimulus sequence, reaction time, correct
    flag and pressed key), never the empty object. *)
Theorem finished_trial_has_response
    (d : Display) (evs : list (Z * Event)) (t : Z) (data : option TrialData) :
  In (t, data) (finished (host (run compareKeys cfg evs (trial page d cfg)))) ->
  (timeout_calls (host (run compareKeys cfg evs (trial page d cfg))) <> [] ->
   responded (vars (run compareKeys cfg evs (trial page d cfg))) = true) /\
  responded (vars (run compareKeys cfg evs (trial page d cfg))) = true /\
  exists info,
    data = Some (mkTrialData (stimuli cfg) (rt info)
                   (compareKeys (key_answer cfg) (key info)) (key info)).
Proof.
  intros Hin.
  destruct (result_invariant d evs) as (_ & Hcalls & _ & Hdone & Hres).
  split; [exact Hcalls|]. split.
  - apply Hdone. intros E. rewrite E in Hin. exact Hin.
  - exact (Hres t data Hin).
Qed.

(** *** Scoring and feedback *)

Lemma vars_after_accepted_response (info : KeyInfo) (w : Trial) :
  allow_response_before_complete cfg = true \/ showAnimation (vars w) = false ->
  vars (after_response compareKeys cfg info w) =
  mkVars (animate_frame (vars w)) (reps (vars w)) (showAnimation (vars w))
    true (timeoutSet (vars w))
    (Some (compareKeys (key_answer cfg) (key info)))
    (Some (result_record compareKeys cfg info)).
Proof.
  intros Hgate. rewrite vars_after_response.
  replace (negb (allow_response_before_complete cfg) && showAnimation (vars w))
    with false; [reflexivity|].
  destruct Hgate as [-> | ->]; [reflexivity|].
  now rewrite andb_false_r.
Qed.

(** C7 (amended).  For every qualifying key event (one that the gate on
    [showAnimation] lets through), [correct] is the verdict of the host's
    key comparison [compareKeys] on the expected and the observed key, and
    the result record carries that verdict; whether the comparison is
    sensitive to case is the host's policy. *)
Theorem correct_is_host_comparison (info : KeyInfo) (w : Trial) :
  allow_response_before_complete cfg = true \/ showAnimation (vars w) = false ->
  correct (vars (after_response compareKeys cfg info w)) =
    Some (compareKeys (key_answer cfg) (key info)) /\
  (correct (vars (after_response compareKeys cfg info w)) = Some true <->
   compareKeys (key_answer cfg) (key info) = true) /\
  responded (vars (after_response compareKeys cfg info w)) = true /\
  trial_data (vars (after_response compareKeys cfg info w)) =
    Some (mkTrialData (stimuli cfg) (rt info)
            (compareKeys (key_answer cfg) (key info)) (key info)).
Proof.
  intros Hgate. rewrite (vars_after_accepted_response info w Hgate).
  cbn [correct responded trial_data].
  split; [reflexivity|]. split; [|split; reflexivity].
  split; [intros H; now inversion H|intros ->; reflexivity].
Qed.

(** The template is chosen by [correct]... *)
Lemma feedback_text_selection (c : option bool) :
  feedback_text cfg c =
  JS.replace "%ANS%" (JS.to_string (text_answer cfg))
    (if match c with Some true => true | _ => false end
     then correct_text cfg else incorrect_text cfg).
Proof. now destruct c as [[|]|]. Qed.

(** ... a template without the token is shown as it is... *)
Lemma feedback_text_without_token (c : option bool) :
  JS.split_first "%ANS%" (correct_text cfg) = None ->
  JS.split_first "%ANS%" (incorrect_text cfg) = None ->
  feedback_text cfg c =
  if match c with Some true => true | _ => false end
  then correct_text cfg else incorrect_text cfg.
Proof.
  intros Hc Hi. rewrite feedback_text_selection.
  destruct c as [[|]|]; now apply JSFacts.replace_no_token.
Qed.

(** ... and an answer label without dollar signs takes the place of the
    first token. *)
Lemma feedback_text_plain_label (label pre post : string) :
  text_answer cfg = Some label ->
  JS.dollar_free label = true ->
  JS.split_first "%ANS%" (correct_text cfg) = Some (pre, post) ->
  feedback_text cfg (Some true) = (pre ++ label ++ post)%string.
Proof.
  intros Hl Hfree Hsplit. unfold feedback_text. rewrite Hl.
  now apply JSFacts.replace_plain.
Qed.

(** *** The feedback phase *)

Lemma feedback_div_before_feedback (w : Trial) :
  render_on_canvas cfg = true ->
  feedback_div
    (display (show_frame cfg (next_frame cfg (clear_direct_markup cfg w)))) =
  feedback_div (display w).
Proof.
  intros Hc.
  assert (E : forall v, feedback_div (display (show_frame cfg v)) =
                        feedback_div (display v)).
  { intros v. unfold show_frame. rewrite Hc.
    now destruct (showAnimation (vars v)). }
  rewrite E, display_next_frame. unfold clear_direct_markup. now rewrite Hc.
Qed.

Lemma prompt_or_feedback_shown (w : Trial) :
  responded (vars w) = true ->
  (render_on_canvas cfg = true -> feedback_div (display w) <> None) ->
  feedback_shown cfg (prompt_or_feedback cfg w).
Proof.
  destruct w as [[f r s rs ts c td] [html cv pd fd] [n ai kl to tc fi g u]];
    simpl.
  intros -> Hfd.
  unfold feedback_shown, prompt_or_feedback, arm_end_of_trial, show_feedback;
    simpl.
  destruct (render_on_canvas cfg).
  - destruct fd as [old|]; [|now elim Hfd].
    now destruct (prompt cfg), ts, g.
  - destruct ts, g; simpl; now exists html.
Qed.

Lemma animate_tick_shows_feedback (w : Trial) :
  responded (vars w) = true ->
  (render_on_canvas cfg = true -> feedback_div (display w) <> None) ->
  feedback_shown cfg (animate_tick cfg w).
Proof.
  intros Hr Hfd. unfold animate_tick. apply prompt_or_feedback_shown.
  - now rewrite vars_show_frame, vars_next_frame, vars_clear_direct_markup.
  - intros Hc. rewrite feedback_div_before_feedback; auto.
Qed.

Lemma feedback_shown_attached (w : Trial) :
  feedback_shown cfg w ->
  render_on_canvas cfg = true -> feedback_div (display w) <> None.
Proof. unfold feedback_shown. intros H Hc. rewrite Hc in H. congruence. Qed.

(** On a page whose global object holds the engine, the firing that follows
    an accepted response arms the end-of-trial timer and opens the feedback
    phase. *)
Lemma tick_opens_feedback_phase (t next : Z) (w : Trial) :
  global_jsPsych (host w) = true ->
  responded (vars w) = true ->
  timeoutSet (vars w) = false ->
  animate_interval (host w) = Some next ->
  timeouts (host w) = [] ->
  finished (host w) = [] ->
  (render_on_canvas cfg = true -> feedback_div (display w) <> None) ->
  feedback_phase cfg (trial_data (vars w)) (correct (vars w))
    (t + Z.max 0 (feedback_duration cfg)) (t + Z.max 0 (frame_time cfg))
    (deliver compareKeys cfg (t, Tick) w).
Proof.
  intros Hg Hr Hts Hi Hto Hfin Hfd. unfold feedback_phase.
  rewrite vars_deliver, host_tick_event, Hi by congruence.
  unfold tick_vars;
    cbn [responded timeoutSet trial_data correct animate_interval timeouts
         finished].
  rewrite Hg, Hr, Hts, Hto, Hfin. cbn.
  repeat (split; [reflexivity|]).
  cbn [deliver]. rewrite Hi.
  change (feedback_shown cfg (animate_tick cfg (set_now t w))).
  now apply animate_tick_shows_feedback.
Qed.




(** Every later firing leaves the phase as it is. *)
Lemma tick_keeps_feedback_phase
    (data : option TrialData) (c : option bool) (due next : Z) (w : Trial) :
  feedback_phase cfg data c due next w ->
  feedback_phase cfg data c due (next + Z.max 0 (frame_time cfg))
    (deliver compareKeys cfg (next, Tick) w).
Proof.
  intros (Hr & Hts & Hd & Hc & Hi & Hto & Hfin & Hshown). unfold feedback_phase.
  rewrite vars_deliver, host_tick_event, Hi by congruence.
  unfold tick_vars;
    cbn [responded timeoutSet trial_data correct animate_interval timeouts
         finished].
  rewrite Hr, Hts, Hto, Hfin. cbn.
  repeat (split; [reflexivity || assumption|]).
  cbn [deliver]. rewrite Hi.
  change (feedback_shown cfg (animate_tick cfg (set_now next w))).
  apply animate_tick_shows_feedback; [assumption|].
  now apply feedback_shown_attached.
Qed.

Lemma next_event_in_phase
    (data : option TrialData) (c : option bool) (due next : Z) (w : Trial) :
  feedback_phase cfg data c due next w ->
  next_event w = if next <=? due then Some (next, Tick) else Some (due, Timeout).
Proof.
  intros (_ & _ & _ & _ & Hi & Hto & _). unfold next_event.
  now rewrite Hi, Hto.
Qed.

(** Until the timer is due the clock runs through the phase: the feedback
    stays on the display and the trial does not finish. *)
Lemma advance_within_feedback_phase
    (data : option TrialData) (c : option bool) (due t : Z) :
  0 < frame_time cfg -> t < due ->
  forall (fuel : nat) (next : Z) (w : Trial),
    feedback_phase cfg data c due next w ->
    t < next + Z.of_nat fuel * frame_time cfg ->
    exists next' w',
      advance compareKeys cfg fuel t w = Some w' /\
      feedback_phase cfg data c due next' w'.
Proof.
  intros Hft Ht. induction fuel as [|fuel IH]; intros next w Hph Hfuel.
  - exists next, w. split; [|assumption]. cbn [advance].
    rewrite (next_event_in_phase _ _ _ _ _ Hph).
    destruct (next <=? due) eqn:E1.
    + destruct (next <=? t) eqn:E2; [lia|reflexivity].
    + destruct (due <=? t) eqn:E2; [lia|reflexivity].
  - cbn [advance]. rewrite (next_event_in_phase _ _ _ _ _ Hph).
    destruct (next <=? due) eqn:E1.
    + destruct (next <=? t) eqn:E2.
      * apply (IH (next + Z.max 0 (frame_time cfg))).
        -- now apply tick_keeps_feedback_phase.
        -- lia.
      * now exists next, w.
    + destruct (due <=? t) eqn:E2; [lia|]. now exists next, w.
Qed.

(** The timer firing in the feedback phase ends the trial; no callback is
    left to fire afterwards. *)
Lemma timeout_ends_trial
    (data : option TrialData) (c : option bool) (due next : Z) (w : Trial)
    (fuel : nat) :
  feedback_phase cfg data c due next w ->
  let w' := deliver compareKeys cfg (due, Timeout) w in
  advance compareKeys cfg fuel due w' = Some w' /\
  finished (host w') = [(due, data)] /\
  display w' = empty_display /\
  animate_interval (host w') = None /\
  timeouts (host w') = [].
Proof.
  intros (Hr & Hts & Hd & Hc & Hi & Hto & Hfin & Hshown) w'.
  assert (Hh := host_timeout_event due w).
  rewrite Hto in Hh. specialize (Hh ltac:(discriminate)).
  fold w' in Hh. cbv zeta in Hh. rewrite Hfin, Hd in Hh.
  assert (Hnone : next_event w' = None)
    by (unfold next_event; now rewrite Hh).
  split; [destruct fuel; cbn [advance]; now rewrite Hnone|].
  rewrite Hh. cbn [finished animate_interval timeouts].
  repeat split. unfold w'. cbn [deliver]. now rewrite Hto.
Qed.

(** When the timer is due the trial ends: the interval is cleared, the
    display is emptied and the host receives the response record, once. *)
Lemma advance_to_end_of_feedback
    (data : option TrialData) (c : option bool) (due : Z) :
  0 < frame_time cfg ->
  forall (fuel : nat) (next : Z) (w : Trial),
    feedback_phase cfg data c due next w ->
    due < next + Z.of_nat fuel * frame_time cfg ->
    exists w',
      advance compareKeys cfg (S fuel) due w = Some w' /\
      finished (host w') = [(due, data)] /\
      display w' = empty_display /\
      animate_interval (host w') = None /\
      timeouts (host w') = [].
Proof.
  intros Hft. induction fuel as [|fuel IH]; intros next w Hph Hfuel;
    cbn [advance]; rewrite (next_event_in_phase _ _ _ _ _ Hph).
  - destruct (next <=? due) eqn:E1; [lia|].
    rewrite Z.leb_refl.
    exists (deliver compareKeys cfg (due, Timeout) w).
    exact (timeout_ends_trial _ _ _ _ _ 0%nat Hph).
  - destruct (next <=? due) eqn:E1.
    + rewrite E1.
      apply (IH (next + Z.max 0 (frame_time cfg))).
      * now apply tick_keeps_feedback_phase.
      * lia.
    + rewrite Z.leb_refl.
      exists (deliver compareKeys cfg (due, Timeout) w).
      exact (timeout_ends_trial _ _ _ _ _ (S fuel) Hph).
Qed.

(** *** The virtual clock produces runs *)

(** Whatever the clock does is a run of delivered events, so every property
    of runs holds of the executions the timers drive. *)
Lemma advance_is_run (fuel : nat) (t : Z) :
  forall w w',
    advance compareKeys cfg fuel t w = Some w' ->
    exists evs, w' = run compareKeys cfg evs w.
Proof.
  induction fuel as [|fuel IH]; intros w w' H; cbn [advance] in H.
  - destruct (next_event w) as [[d e]|]; [destruct (d <=? t); [discriminate|]|];
      inversion H; subst; now exists [].
  - destruct (next_event w) as [[d e]|].
    + destruct (d <=? t).
      * destruct (IH _ _ H) as [evs Hevs]. exists ((d, e) :: evs). exact Hevs.
      * inversion H; subst. now exists [].
    + inversion H; subst. now exists [].
Qed.

Lemma press_is_run (fuel : nat) (t : Z) (info : KeyInfo) (w w' : Trial) :
  press compareKeys cfg fuel t info w = Some w' ->
  exists evs, w' = run compareKeys cfg evs w.
Proof.
  unfold press. destruct (advance compareKeys cfg fuel t w) as [w1|] eqn:E;
    [|discriminate].
  intros H. inversion H; subst.
  destruct (advance_is_run _ _ _ _ E) as [evs ->].
  exists (evs ++ [(t, KeyPress info)]). now rewrite run_snoc.
Qed.

(** *** Key events, as the host delivers them *)


Lemma deliver_key_accepted (t : Z) (info : KeyInfo) (w : Trial) :
  allow_response_before_complete cfg = true \/ showAnimation (vars w) = false ->
  keyboard_listener (host w) = true ->
  valid_response compareKeys cfg (key info) = true ->
  let w' := deliver compareKeys cfg (t, KeyPress info) w in
  vars w' =
    mkVars (animate_frame (vars w)) (reps (vars w)) (showAnimation (vars w))
      true (timeoutSet (vars w))
      (Some (compareKeys (key_answer cfg) (key info)))
      (Some (result_record compareKeys cfg info)) /\
  host w' =
    mkHost t (animate_interval (host w)) false (timeouts (host w))
      (timeout_calls (host w)) (finished (host w)) (global_jsPsych (host w))
      (uncaught (host w)) /\
  display w' = display w.
Proof.
  intros Hgate Hl Hvalid w'. unfold w'.
  assert (Hg : negb (allow_response_before_complete cfg)
               && showAnimation (vars w) = false)
    by (destruct Hgate as [-> | ->]; [reflexivity|apply andb_false_r]).
  split; [|split].
  - rewrite vars_deliver, Hl, Hvalid. cbn [andb].
    now rewrite vars_after_response, Hg.
  - rewrite host_key_event. cbv zeta. now rewrite Hl, Hvalid, Hg.
  - cbn [deliver]. rewrite Hl, Hvalid. cbn [andb].
    unfold after_response. change (vars (set_now t w)) with (vars w).
    rewrite Hg.
    now destruct (compareKeys (key_answer cfg) (key info)).
Qed.

End Controller.

(** Under a host that compares keys exactly, the score is the case-sensitive
    equality of the two keys. *)
Corollary correct_under_exact_host
    (cfg : TrialConfig) (info : KeyInfo) (w : Trial) :
  allow_response_before_complete cfg = true \/ showAnimation (vars w) = false ->
  correct (vars (after_response String.eqb cfg info w)) = Some true <->
  key_answer cfg = key info.
Proof.
  intros Hgate. rewrite (vars_after_accepted_response String.eqb cfg info w Hgate).
  cbn [correct]. rewrite <- String.eqb_eq.
  split; [intros H; now inversion H|intros ->; reflexivity].
Qed.

(** *** The scenario of the specification *)

Section Scenario.

Variable compareKeys : string -> string -> bool.
Variable fd : Z.
Variable page : bool.

#[local] Abbreviation cfg := (scenario fd).
#[local] Abbreviation w0 := (trial page empty_display (scenario fd)).
#[local] Abbreviation after6 :=
  (run compareKeys (scenario fd) (tick_events 100 6)
     (trial page empty_display (scenario fd))).
#[local] Abbreviation after7 :=
  (run compareKeys (scenario fd) (tick_events 100 7)
     (trial page empty_display (scenario fd))).








End Scenario.

(** *** Instances *)

(** C1, as stated, fails in the scenario (L = 3, R = 2): after 3 * 2
    firings [showAnimation] is still true, and no count of firings up to the
    stop equals 3 * 2 (the count is 7). *)
Lemma animation_runs_through_LR_firings :
  showAnimation (vars (ticks (scenario 2000) (3 * 2) scenario_start)) = true /\
  advances_until_stop (scenario 2000) 7 scenario_start = Some 7%nat /\
  ~ (exists fuel,
       advances_until_stop (scenario 2000) fuel scenario_start
       = Some (3 * 2)%nat).
Proof.
  split; [vm_compute; reflexivity|].
  split; [vm_compute; reflexivity|].
  intros [fuel H].
  do 7 (destruct fuel as [|fuel]; [vm_compute in H; discriminate|]).
  vm_compute in H. discriminate.
Qed.

Lemma animation_stops_on_firing_LR_plus_1_scenario :
  (1 <= Z.of_nat (List.length (stimuli (scenario 2000))) /\
   1 <= sequence_reps (scenario 2000) /\
   Z.of_nat 6 =
     Z.of_nat (List.length (stimuli (scenario 2000)))
     * sequence_reps (scenario 2000)) /\
  (forall n, (n <= 6)%nat ->
     showAnimation (vars (ticks (scenario 2000) n scenario_start)) = true) /\
  showAnimation (vars (ticks (scenario 2000) 7 scenario_start)) = false /\
  (forall fuel, (6 < fuel)%nat ->
     advances_until_stop (scenario 2000) fuel scenario_start = Some 7%nat).
Proof.
  assert (H1 : 1 <= Z.of_nat (List.length (stimuli (scenario 2000))))
    by (vm_compute; discriminate).
  assert (H2 : 1 <= sequence_reps (scenario 2000))
    by (vm_compute; discriminate).
  assert (H3 : Z.of_nat 6 =
               Z.of_nat (List.length (stimuli (scenario 2000)))
               * sequence_reps (scenario 2000))
    by reflexivity.
  split; [split; [exact H1|split; [exact H2|exact H3]]|].
  destruct (animation_stops_on_firing_LR_plus_1 (scenario 2000)
              true empty_display 6 H1 H2 H3) as (Hrun & _ & Hstop & Hcount).
  split; [exact Hrun|]. split; [exact Hstop|exact Hcount].
Defined.



Lemma ignored_response_changes_nothing_scenario :
  (allow_response_before_complete (scenario 2000) = false /\
   showAnimation (vars scenario_start) = true) /\
  after_response String.eqb (scenario 2000) (key_j 50) scenario_start
  = scenario_start.
Proof.
  assert (H1 : allow_response_before_complete (scenario 2000) = false)
    by reflexivity.
  assert (H2 : showAnimation (vars scenario_start) = true) by reflexivity.
  split; [split; [exact H1|exact H2]|].
  exact (proj1 (ignored_response_changes_nothing String.eqb (scenario 2000)
                  (key_j 50) scenario_start H1 H2)).
Defined.

Lemma unbounded_animation_never_stops_instance :
  sequence_reps unbounded = -1 /\
  showAnimation (vars (ticks unbounded 1000 unbounded_start)) = true.
Proof.
  assert (H : sequence_reps unbounded = -1) by reflexivity.
  split; [exact H|].
  exact (proj1 (proj2 (unbounded_animation_never_stops String.eqb unbounded true H))
           empty_display 1000%nat).
Defined.

(** C7, as stated, fails under a host that compares keys without regard to
    case: with expected key [j], the observed key [J], delivered after the
    animation, is scored correct although the two keys differ as
    case-sensitive strings. *)
Lemma caseless_host_scores_other_case_correct :
  showAnimation (vars (ticks (scenario 2000) 7 scenario_start)) = false /\
  correct
    (vars (after_response compareKeys_caseless (scenario 2000)
             (mkKeyInfo "J" 750) (ticks (scenario 2000) 7 scenario_start)))
  = Some true /\
  String.eqb (key_answer (scenario 2000)) "J" = false.
Proof. by_evaluation. Qed.

Lemma correct_is_host_comparison_caseless :
  (allow_response_before_complete (scenario 2000) = true \/
   showAnimation (vars (ticks (scenario 2000) 7 scenario_start)) = false) /\
  correct
    (vars (after_response compareKeys_caseless (scenario 2000)
             (mkKeyInfo "J" 750) (ticks (scenario 2000) 7 scenario_start)))
  = Some (compareKeys_caseless "j" "J").
Proof.
  assert (H : allow_response_before_complete (scenario 2000) = true \/
              showAnimation (vars (ticks (scenario 2000) 7 scenario_start))
              = false)
    by (right; vm_compute; reflexivity).
  split; [exact H|].
  exact (proj1 (correct_is_host_comparison compareKeys_caseless (scenario 2000)
                  (mkKeyInfo "J" 750) _ H)).
Defined.

(** C8, as stated, fails at the start of every trial: before the first
    firing [showAnimation] is true and the frame index is -1, outside
    [0, 3). *)
Lemma frame_index_negative_before_first_tick :
  showAnimation (vars scenario_start) = true /\
  animate_frame (vars scenario_start) = -1 /\
  ~ (0 <= animate_frame (vars scenario_start)
     < Z.of_nat (List.length (stimuli (scenario 2000)))).
Proof.
  split; [reflexivity|]. split; [reflexivity|].
  intros [H _]. now apply H.
Qed.

Lemma frame_index_in_range_after_first_tick_scenario :
  (1 <= Z.of_nat (List.length (stimuli (scenario 2000))) /\
   showAnimation
     (vars (run String.eqb (scenario 2000)
              ([(50, KeyPress (key_j 50))] ++ (100, Tick) :: [(200, Tick)])
              (trial true empty_display (scenario 2000)))) = true) /\
  0 <= animate_frame
         (vars (run String.eqb (scenario 2000)
                  ([(50, KeyPress (key_j 50))] ++ (100, Tick) :: [(200, Tick)])
                  (trial true empty_display (scenario 2000))))
    < Z.of_nat (List.length (stimuli (scenario 2000))).
Proof.
  assert (H1 : 1 <= Z.of_nat (List.length (stimuli (scenario 2000))))
    by (vm_compute; discriminate).
  assert (H2 : showAnimation
                 (vars (run String.eqb (scenario 2000)
                          ([(50, KeyPress (key_j 50))]
                           ++ (100, Tick) :: [(200, Tick)])
                          (trial true empty_display (scenario 2000)))) = true)
    by (vm_compute; reflexivity).
  split; [split; [exact H1|exact H2]|].
  exact (frame_index_in_range_after_first_tick String.eqb (scenario 2000)
           true empty_display [(50, KeyPress (key_j 50))] [(200, Tick)] 100 H1 H2).
Defined.

Lemma finished_trial_has_response_scenario :
  In (2800, Some (mkTrialData ["a"; "b"; "c"] 750 true "j"))
    (finished
       (host (run String.eqb (scenario 2000) whole_trial
                (trial true empty_display (scenario 2000))))) /\
  responded
    (vars (run String.eqb (scenario 2000) whole_trial
             (trial true empty_display (scenario 2000)))) = true.
Proof.
  assert (H : In (2800, Some (mkTrialData ["a"; "b"; "c"] 750 true "j"))
                (finished
                   (host (run String.eqb (scenario 2000) whole_trial
                            (trial true empty_display (scenario 2000))))))
    by (vm_compute; left; reflexivity).
  split; [exact H|].
  exact (proj1 (proj2 (finished_trial_has_response String.eqb (scenario 2000)
                         true empty_display whole_trial 2800 _ H))).
Defined.

(** An instance of the guard at work: the interval callback fires twenty
    times after the response of the scenario, and the timer was armed
    once. *)
Example end_timer_armed_once_in_scenario :
  timeout_calls
    (host (run String.eqb (scenario 2000)
             (tick_events 100 7 ++ [(750, KeyPress (key_j 750))]
              ++ map (fun k => (800 + 100 * Z.of_nat k, Tick)) (seq 0 20))
             scenario_start))
  = [2000].
Proof. vm_compute. reflexivity. Qed.

(** C6: the code fails the claim when the answer label holds a dollar
    pattern of [String.prototype.replace].  With the template
    [Correct! Answer: %ANS%] the label [cat] is inserted as it is, but the
    label [$$] comes out as a single dollar sign and the label [$&] as the
    token itself. *)
Theorem feedback_text_expands_dollar_patterns :
  feedback_text (labelled "cat") (Some true) = "Correct! Answer: cat"%string /\
  feedback_text (labelled "cat") (Some false) = "Wrong! Answer: cat"%string /\
  feedback_text (labelled "$$") (Some true) = "Correct! Answer: $"%string /\
  feedback_text (labelled "$&") (Some true) = "Correct! Answer: %ANS%"%string /\
  feedback_text (labelled "$$") (Some true) <> "Correct! Answer: $$"%string.
Proof.
  split_conj; try (vm_compute; reflexivity).
  vm_compute. discriminate.
Qed.

End AnimationProofs.

(** ** The scene renderer *)

Module GridProofs.
Import VslGridScene.
#[local] Open Scope list_scope.

(** C9 (amended).  For every grid with at least one row and every trial
    duration, [trial] mounts the generated markup and schedules exactly one
    delayed callback, after the configured duration; when it fires, it
    empties the mount point and reports exactly the grid it was given as
    the result data. *)
Theorem scene_schedules_one_end_of_trial (previous : string) (cfg : TrialConfig) :
  stimuli cfg <> [] ->
  exists s,
    trial (mount previous) cfg = Some s /\
    generate_stimulus (image_size cfg) (stimuli cfg) = Some (innerHTML s) /\
    timeouts s = [trial_duration cfg] /\
    finished s = [] /\
    innerHTML (fire_timeout cfg s) = EmptyString /\
    timeouts (fire_timeout cfg s) = [] /\
    finished (fire_timeout cfg s) = [mkTrialData (stimuli cfg)].
Proof.
  intros Hrows. unfold trial.
  destruct (generate_stimulus (image_size cfg) (stimuli cfg)) as [html|] eqn:E.
  - eexists. split; [reflexivity|]. now repeat split.
  - unfold generate_stimulus in E. destruct (stimuli cfg); [congruence|discriminate].
Qed.

(** C9, as stated, fails for the grid without rows: [generate_stimulus]
    throws on [pattern[0].length], so nothing is mounted and no callback is
    scheduled. *)
Lemma scene_without_rows_schedules_nothing :
  generate_stimulus (image_size empty_scene) (stimuli empty_scene) = None /\
  trial (mount EmptyString) empty_scene = None.
Proof. split; reflexivity. Qed.

Lemma scene_schedules_one_end_of_trial_sample :
  stimuli sample_scene <> [] /\
  exists s,
    trial (mount EmptyString) sample_scene = Some s /\
    timeouts s = [2000] /\
    finished (fire_timeout sample_scene s) =
      [mkTrialData [[Src "a.png"; Zero]; [Src "b.png"; Src "c.png"]]].
Proof.
  assert (H : stimuli sample_scene <> []) by discriminate.
  split; [exact H|].
  destruct (scene_schedules_one_end_of_trial EmptyString sample_scene H)
    as (s & Ht & _ & Hto & _ & _ & _ & Hfin).
  exists s. split; [exact Ht|]. split; [exact Hto|exact Hfin].
Defined.

End GridProofs.

(** ** More on the animation trial controller *)

Module AnimationMore.
Import CategorizeAnimation AnimationProofs.
#[local] Open Scope list_scope.

Section Protocol.

Variable compareKeys : string -> string -> bool.
Variable cfg : TrialConfig.
Variable page : bool.

#[local] Abbreviation L := (Z.of_nat (List.length (stimuli cfg))).
#[local] Abbreviation R := (sequence_reps cfg).

(** *** The flag only goes down *)

Lemma tick_vars_stays_stopped (x : Vars) :
  showAnimation x = false -> showAnimation (tick_vars cfg x) = false.
Proof. intros H. tick_step. rewrite H. now destruct (_ && _). Qed.

Lemma showAnimation_deliver (te : Z * Event) (w : Trial) :
  showAnimation (vars w) = false ->
  showAnimation (vars (deliver compareKeys cfg te w)) = false.
Proof.
  intros H. destruct te as [t e]. rewrite vars_deliver.
  destruct e as [|info|]; trivial.
  - destruct (animate_interval (host w)); trivial.
    now apply tick_vars_stays_stopped.
  - destruct (keyboard_listener (host w) && _); trivial.
    rewrite vars_after_response.
    now destruct (negb (allow_response_before_complete cfg) && _).
Qed.

(** X1.  Once [showAnimation] is false it is false for the rest of the trial: no
    callback sets it back, so responses stay accepted once they are. *)
Theorem animation_never_restarts (d : Display) (evs1 evs2 : list (Z * Event)) :
  showAnimation (vars (run compareKeys cfg evs1 (trial page d cfg))) = false ->
  showAnimation (vars (run compareKeys cfg (evs1 ++ evs2) (trial page d cfg))) = false.
Proof.
  intros H. rewrite run_app.
  apply (run_invariant compareKeys cfg
           (fun w => showAnimation (vars w) = false)); [exact H|].
  intros te w Hw. now apply showAnimation_deliver.
Qed.

(** *** Registrations *)

Lemma display_timeout_event (t : Z) (w : Trial) :
  timeouts (host w) <> [] ->
  display (deliver compareKeys cfg (t, Timeout) w) = empty_display.
Proof.
  intros Ht. cbn [deliver]. destruct (timeouts (host w)); [congruence|].
  reflexivity.
Qed.

Lemma ended_is_final (te : Z * Event) (w : Trial) :
  ended w -> deliver compareKeys cfg te w = w.
Proof.
  intros (Hi & Ht & Hl & _). destruct te as [t [|info|]]; cbn [deliver].
  - now rewrite Hi.
  - now rewrite Hl.
  - now rewrite Ht.
Qed.

Lemma registrations_invariant (d : Display) (evs : list (Z * Event)) :
  registrations_consistent (run compareKeys cfg evs (trial page d cfg)).
Proof.
  apply (run_invariant compareKeys cfg registrations_consistent).
  - unfold registrations_consistent; cbn.
    split; [discriminate|]. split; [reflexivity|].
    split; [intros H; now elim H|]. split; [discriminate|]. now left.
  - intros [t e] w Hw.
    pose proof Hw as (Hlisten & Hguard & Hpending & Hlive & Hfin).
    destruct Hfin as [Hfin|(Hone & Hts & Hend)].
    2:{ now rewrite (ended_is_final (t, e) w Hend). }
    unfold registrations_consistent. destruct e as [|info|].
    + specialize (Hlive Hfin).
      rewrite vars_deliver, host_tick_event by assumption.
      destruct (animate_interval (host w)) eqn:Ei; [|congruence].
      tick_step. cbn [keyboard_listener timeouts finished animate_interval].
      split; [assumption|].
      destruct (responded (vars w)) eqn:Hr, (timeoutSet (vars w)) eqn:Hts;
        cbn [andb orb negb].
      * split; [discriminate|]. split; [reflexivity|].
        split; [discriminate|]. now left.
      * split; [discriminate|]. split; [reflexivity|].
        split; [discriminate|]. now left.
      * split; [discriminate|]. split; [assumption|].
        split; [discriminate|]. now left.
      * split; [assumption|]. split; [assumption|].
        split; [discriminate|]. now left.
    + destruct (keyboard_listener (host w)
                && valid_response compareKeys cfg (key info)) eqn:Ek;
        [|cbn [deliver]; rewrite Ek; exact Hw].
      rewrite vars_deliver, host_key_event. cbv zeta. rewrite Ek.
      rewrite vars_after_response.
      destruct (negb (allow_response_before_complete cfg) && _) eqn:Eg;
        cbn [responded timeoutSet keyboard_listener timeouts finished
             animate_interval andb].
      * apply andb_true_iff in Ek as [Hl _]. rewrite Hl.
        split; [intros Hr; rewrite (Hlisten Hr) in Hl; discriminate|].
        split; [assumption|]. split; [assumption|].
        split; [assumption|]. now left.
      * split; [reflexivity|]. split; [assumption|]. split; [reflexivity|].
        split; [assumption|]. now left.
    + assert (Hcases : timeouts (host w) = [] \/ timeouts (host w) <> [])
        by (destruct (timeouts (host w)); [now left|right; discriminate]).
      destruct Hcases as [Et|Hne];
        [cbn [deliver]; rewrite Et; exact Hw|].
      assert (Hr : responded (vars w) = true) by (apply Hpending; exact Hne).
      assert (Hts : timeoutSet (vars w) = true).
      { destruct (timeoutSet (vars w)); [reflexivity|].
        now elim Hne; apply Hguard. }
      pose proof (display_timeout_event t w Hne) as Hd.
      rewrite vars_deliver, host_timeout_event by exact Hne.
      cbn [keyboard_listener timeouts finished animate_interval].
      rewrite Hfin. cbn [app].
      split; [assumption|]. split; [reflexivity|].
      split; [intros H; now elim H|]. split; [discriminate|].
      right. split; [eexists; reflexivity|]. split; [exact Hts|].
      unfold ended. rewrite host_timeout_event by exact Hne.
      cbn [keyboard_listener timeouts animate_interval].
      split; [reflexivity|]. split; [reflexivity|].
      split; [now apply Hlisten|exact Hd].
Qed.

(** X2.  In every run [finishTrial] is called at most once. *)
Theorem trial_finishes_at_most_once (d : Display) (evs : list (Z * Event)) :
  (List.length (finished (host (run compareKeys cfg evs (trial page d cfg)))) <= 1)%nat.
Proof.
  destruct (registrations_invariant d evs) as (_ & _ & _ & _ & [H|((r & H) & _)]);
    rewrite H; simpl; lia.
Qed.

(** X3.  Once [finishTrial] was called the trial is over for good: the interval
    is cleared, no timer is pending, the keyboard listener is cancelled, the
    display is empty, and no later event changes anything. *)
Theorem finished_trial_is_final (d : Display) (evs1 evs2 : list (Z * Event)) :
  finished (host (run compareKeys cfg evs1 (trial page d cfg))) <> [] ->
  ended (run compareKeys cfg evs1 (trial page d cfg)) /\
  run compareKeys cfg (evs1 ++ evs2) (trial page d cfg) =
  run compareKeys cfg evs1 (trial page d cfg).
Proof.
  intros Hfin.
  destruct (registrations_invariant d evs1) as (_ & _ & _ & _ & [H|(_ & _ & Hend)]);
    [congruence|].
  split; [exact Hend|]. rewrite run_app.
  apply (run_invariant compareKeys cfg
           (fun w => w = run compareKeys cfg evs1 (trial page d cfg)));
    [reflexivity|].
  intros te w ->. now apply ended_is_final.
Qed.

(** X4.  The first accepted response is the only one: from then on the listener
    is cancelled and no event changes [responded], [correct] or the result
    record. *)
Theorem first_response_is_kept (d : Display) (evs1 evs2 : list (Z * Event)) :
  responded (vars (run compareKeys cfg evs1 (trial page d cfg))) = true ->
  responded (vars (run compareKeys cfg (evs1 ++ evs2) (trial page d cfg))) = true /\
  correct (vars (run compareKeys cfg (evs1 ++ evs2) (trial page d cfg))) =
    correct (vars (run compareKeys cfg evs1 (trial page d cfg))) /\
  trial_data (vars (run compareKeys cfg (evs1 ++ evs2) (trial page d cfg))) =
    trial_data (vars (run compareKeys cfg evs1 (trial page d cfg))) /\
  keyboard_listener (host (run compareKeys cfg (evs1 ++ evs2) (trial page d cfg)))
  = false.
Proof.
  intros Hr.
  induction evs2 as [|te evs2 IH] using rev_ind.
  - rewrite app_nil_r.
    destruct (registrations_invariant d evs1) as (Hl & _).
    split; [exact Hr|]. split; [reflexivity|]. split; [reflexivity|].
    now apply Hl.
  - destruct IH as (Hr2 & Hc & Hd & Hl).
    rewrite app_assoc, run_snoc.
    set (w := run compareKeys cfg (evs1 ++ evs2) (trial page d cfg)) in *.
    destruct te as [t e].
    assert (Hv : responded (vars (deliver compareKeys cfg (t, e) w)) = true /\
                 correct (vars (deliver compareKeys cfg (t, e) w)) = correct (vars w) /\
                 trial_data (vars (deliver compareKeys cfg (t, e) w))
                 = trial_data (vars w)).
    { rewrite vars_deliver. destruct e as [|info|].
      - destruct (animate_interval (host w)); [tick_step|]; now repeat split.
      - rewrite Hl. now repeat split.
      - now repeat split. }
    destruct Hv as (Hv1 & Hv2 & Hv3).
    split; [exact Hv1|]. split; [now rewrite Hv2|]. split; [now rewrite Hv3|].
    destruct (registrations_invariant d ((evs1 ++ evs2) ++ [(t, e)])) as (Hl' & _).
    rewrite run_snoc in Hl'. fold w in Hl'. now apply Hl'.
Qed.

(** *** Keys that are accepted *)

Lemma listener_until_response (d : Display) (evs : list (Z * Event)) :
  keyboard_listener (host (run compareKeys cfg evs (trial page d cfg))) = false ->
  responded (vars (run compareKeys cfg evs (trial page d cfg))) = true.
Proof.
  apply (run_invariant compareKeys cfg
           (fun w => keyboard_listener (host w) = false ->
                     responded (vars w) = true)); [discriminate|].
  intros [t e] w Hw. destruct e as [|info|].
  - destruct (animate_interval (host w)) eqn:Ei;
      [|cbn [deliver]; now rewrite Ei].
    rewrite vars_deliver, Ei, host_tick_event by congruence.
    cbn [keyboard_listener]. tick_step. exact Hw.
  - destruct (keyboard_listener (host w)
              && valid_response compareKeys cfg (key info)) eqn:Ek;
      [|cbn [deliver]; now rewrite Ek].
    rewrite vars_deliver, host_key_event. cbv zeta. rewrite Ek.
    rewrite vars_after_response. cbn [keyboard_listener].
    destruct (negb (allow_response_before_complete cfg) && _);
      [|reflexivity].
    apply andb_true_iff in Ek as [Hl _]. rewrite Hl. discriminate.
  - destruct (timeouts (host w)) eqn:Et; [cbn [deliver]; now rewrite Et|].
    rewrite vars_deliver, host_timeout_event by congruence.
    cbn [keyboard_listener]. exact Hw.
Qed.

(** X5.  As long as no response is in, every accepted key that arrives while
    responses are allowed (before the end of the animation if the trial
    allows it, after it in any case) is taken: [responded] becomes true, the
    key is scored by the host's comparison and recorded with its reaction
    time, and the listener is cancelled. *)
Theorem open_gate_accepts_key
    (d : Display) (evs : list (Z * Event)) (t : Z) (info : KeyInfo) :
  responded (vars (run compareKeys cfg evs (trial page d cfg))) = false ->
  allow_response_before_complete cfg = true \/
    showAnimation (vars (run compareKeys cfg evs (trial page d cfg))) = false ->
  valid_response compareKeys cfg (key info) = true ->
  responded
    (vars (run compareKeys cfg (evs ++ [(t, KeyPress info)]) (trial page d cfg)))
  = true /\
  correct
    (vars (run compareKeys cfg (evs ++ [(t, KeyPress info)]) (trial page d cfg)))
  = Some (compareKeys (key_answer cfg) (key info)) /\
  trial_data
    (vars (run compareKeys cfg (evs ++ [(t, KeyPress info)]) (trial page d cfg)))
  = Some (mkTrialData (stimuli cfg) (rt info)
            (compareKeys (key_answer cfg) (key info)) (key info)) /\
  keyboard_listener
    (host (run compareKeys cfg (evs ++ [(t, KeyPress info)]) (trial page d cfg)))
  = false.
Proof.
  intros Hr Hgate Hvalid. rewrite run_snoc.
  assert (Hl : keyboard_listener
                 (host (run compareKeys cfg evs (trial page d cfg))) = true).
  { destruct (keyboard_listener (host _)) eqn:E; [reflexivity|].
    rewrite (listener_until_response d evs E) in Hr. discriminate. }
  destruct (deliver_key_accepted compareKeys cfg t info _ Hgate Hl Hvalid)
    as (Hv & Hh & _).
  rewrite Hv, Hh. now repeat split.
Qed.

(** *** The unbounded animation without early responses *)

(** X6.  With [sequence_reps] at -1 and [allow_response_before_complete] false no
    key is ever accepted and the trial never ends: in every run [responded]
    is false, the end-of-trial timer is not armed and [finishTrial] is not
    called. *)
Theorem unbounded_trial_never_ends (d : Display) (evs : list (Z * Event)) :
  R = -1 -> allow_response_before_complete cfg = false ->
  responded (vars (run compareKeys cfg evs (trial page d cfg))) = false /\
  timeout_calls (host (run compareKeys cfg evs (trial page d cfg))) = [] /\
  finished (host (run compareKeys cfg evs (trial page d cfg))) = [].
Proof.
  intros HR Hallow.
  assert (H : (fun w => showAnimation (vars w) = true /\
                        responded (vars w) = false /\
                        timeouts (host w) = [] /\
                        timeout_calls (host w) = [] /\
                        finished (host w) = [])
                (run compareKeys cfg evs (trial page d cfg))).
  { apply (run_invariant compareKeys cfg).
    - now repeat split.
    - intros [t e] w (Hs & Hr & Hto & Hc & Hf). destruct e as [|info|].
      + destruct (animate_interval (host w)) eqn:Ei;
          [|cbn [deliver]; rewrite Ei; now repeat split].
        rewrite vars_deliver, Ei, host_tick_event by congruence.
        cbn [timeouts timeout_calls finished]. rewrite Hr. cbn [andb].
        split; [now rewrite tick_vars_unbounded|].
        split; [tick_step; exact Hr|]. now repeat split.
      + rewrite vars_deliver, host_key_event. cbv zeta.
        destruct (keyboard_listener (host w) && _); [|now repeat split].
        rewrite vars_after_response, Hallow, Hs.
        cbn [negb andb timeouts timeout_calls finished]. now repeat split.
      + cbn [deliver]. rewrite Hto. now repeat split. }
  cbv beta in H. tauto.
Qed.

End Protocol.

End AnimationMore.

(** ** The display during a trial *)

Module DisplayProofs.
Import CategorizeAnimation AnimationProofs.
#[local] Open Scope list_scope.

Lemma append_empty_r (s : string) : (s ++ EmptyString)%string = s.
Proof. induction s as [|c s IH]; simpl; [reflexivity|now rewrite IH]. Qed.

Section Display.

Variable compareKeys : string -> string -> bool.
Variable cfg : TrialConfig.
Variable page : bool.

#[local] Abbreviation L := (Z.of_nat (List.length (stimuli cfg))).
#[local] Abbreviation R := (sequence_reps cfg).

(** *** Key events and the animation *)

Lemma finished_deliver_nil (te : Z * Event) (w : Trial) :
  finished (host (deliver compareKeys cfg te w)) = [] ->
  finished (host w) = [].
Proof.
  destruct te as [t [|info|]].
  - destruct (animate_interval (host w)) eqn:Ei.
    + now rewrite host_tick_event by congruence.
    + cbn [deliver]. now rewrite Ei.
  - rewrite host_key_event. cbv zeta.
    now destruct (keyboard_listener (host w) && _).
  - destruct (timeouts (host w)) eqn:Et.
    + cbn [deliver]. now rewrite Et.
    + rewrite host_timeout_event by congruence. cbn [finished].
      intros H. now destruct (finished (host w)).
Qed.

Lemma count_ticks_app (evs1 evs2 : list (Z * Event)) :
  count_ticks (evs1 ++ evs2) = (count_ticks evs1 + count_ticks evs2)%nat.
Proof.
  induction evs1 as [|[t e] evs1 IH]; [reflexivity|].
  destruct e; simpl; now rewrite IH.
Qed.

Lemma animation_state_tick_vars (x y : Vars) :
  animation_state x = animation_state y ->
  animation_state (tick_vars cfg x) = animation_state (tick_vars cfg y).
Proof.
  unfold animation_state. intros H. injection H as Hf Hr Hs.
  tick_step. now rewrite Hf, Hr, Hs.
Qed.

Lemma animation_state_of_run (d : Display) (evs : list (Z * Event)) :
  finished (host (run compareKeys cfg evs (trial page d cfg))) = [] ->
  animation_state (vars (run compareKeys cfg evs (trial page d cfg))) =
  animation_state (vars (ticks cfg (count_ticks evs) (trial page d cfg))).
Proof.
  induction evs as [|[t e] evs IH] using rev_ind; [reflexivity|].
  rewrite run_snoc, count_ticks_app. intros Hfin.
  pose proof (finished_deliver_nil _ _ Hfin) as Hfin'.
  specialize (IH Hfin'). rewrite vars_deliver. destruct e as [|info|].
  - destruct (AnimationMore.registrations_invariant compareKeys cfg page d evs)
      as (_ & _ & _ & Hlive & _).
    specialize (Hlive Hfin').
    destruct (animate_interval (host _)); [|congruence].
    cbn [count_ticks]. rewrite Nat.add_1_r, vars_ticks_S.
    now apply animation_state_tick_vars.
  - cbn [count_ticks]. rewrite Nat.add_0_r.
    destruct (keyboard_listener (host _) && _); [|exact IH].
    rewrite vars_after_response.
    destruct (negb (allow_response_before_complete cfg) && _); exact IH.
  - cbn [count_ticks]. rewrite Nat.add_0_r. exact IH.
Qed.

(** X7.  Key events leave the animation alone: as long as the trial has not
    ended, the frame index, the repetition count and [showAnimation] are
    those that the ticks delivered so far produce on their own. *)
Theorem animation_depends_on_ticks_only (d : Display) (evs : list (Z * Event)) :
  finished (host (run compareKeys cfg evs (trial page d cfg))) = [] ->
  animation_state (vars (run compareKeys cfg evs (trial page d cfg))) =
  animation_state (vars (ticks cfg (count_ticks evs) (trial page d cfg))).
Proof.
  intros Hfin. rewrite (animation_state_of_run d evs Hfin). reflexivity.
Qed.

Lemma ticks_stay_stopped (d : Display) (n k : nat) :
  showAnimation (vars (ticks cfg n (trial page d cfg))) = false ->
  showAnimation (vars (ticks cfg (n + k) (trial page d cfg))) = false.
Proof.
  intros H. induction k as [|k IH]; [now rewrite Nat.add_0_r|].
  rewrite Nat.add_succ_r, vars_ticks_S.
  now apply AnimationMore.tick_vars_stays_stopped.
Qed.

Lemma animating_iff_ticks (d : Display) (n : nat) :
  1 <= L -> 1 <= R ->
  showAnimation (vars (ticks cfg n (trial page d cfg))) = false <-> L * R < Z.of_nat n.
Proof.
  intros HL HR. split.
  - intros H. destruct (Z.ltb_spec (L * R) (Z.of_nat n)) as [|Hle]; [assumption|].
    rewrite (animating_through_LR cfg page d n HL HR Hle) in H. discriminate.
  - intros H.
    assert (HN : Z.of_nat (Z.to_nat (L * R)) = L * R) by lia.
    pose proof (stopped_at_LR_plus_1 cfg page d _ HL HR HN) as Hstop.
    replace n with (S (Z.to_nat (L * R)) + (n - S (Z.to_nat (L * R))))%nat by lia.
    now apply ticks_stay_stopped.
Qed.

(** X8.  For a sequence of length L >= 1 and a finite target R >= 1, in a trial
    that has not ended [showAnimation] is false exactly when more than
    L * R ticks were delivered, whatever keys were pressed meanwhile. *)
Theorem animation_over_after_LR_ticks (d : Display) (evs : list (Z * Event)) :
  1 <= L -> 1 <= R ->
  finished (host (run compareKeys cfg evs (trial page d cfg))) = [] ->
  showAnimation (vars (run compareKeys cfg evs (trial page d cfg))) = false <->
  L * R < Z.of_nat (count_ticks evs).
Proof.
  intros HL HR Hfin.
  pose proof (animation_state_of_run d evs Hfin) as H.
  unfold animation_state in H. injection H as _ _ Hs. rewrite Hs.
  now apply animating_iff_ticks.
Qed.

(** *** What a tick puts on the display *)

Lemma trial_eta (w : Trial) : w = mkTrial (vars w) (display w) (host w).
Proof. now destruct w. Qed.

Lemma frame_of_next_frame (w : Trial) :
  animate_frame (vars (next_frame cfg (clear_direct_markup cfg w))) =
    animate_frame (tick_vars cfg (vars w)) /\
  showAnimation (vars (next_frame cfg (clear_direct_markup cfg w))) =
    showAnimation (tick_vars cfg (vars w)) /\
  responded (vars (next_frame cfg (clear_direct_markup cfg w))) =
    responded (vars w) /\
  correct (vars (next_frame cfg (clear_direct_markup cfg w))) =
    correct (vars w).
Proof.
  rewrite vars_next_frame, vars_clear_direct_markup. now repeat split.
Qed.

Lemma waiting_display_canvas (x : Vars) (d : Display) (h : Host) :
  responded x = false -> render_on_canvas cfg = true ->
  display (prompt_or_feedback cfg (show_frame cfg (mkTrial x d h))) =
  mkDisplay (innerHTML d)
    (if showAnimation x then
       match canvas d with
       | Some _ => Some (Some (stimulus_at cfg (animate_frame x)))
       | None => None
       end
     else None)
    (if allow_response_before_complete cfg || negb (showAnimation x) then
       match prompt cfg, prompt_div d with
       | Some _, Some _ => Some true
       | _, _ => prompt_div d
       end
     else prompt_div d)
    (feedback_div d).
Proof.
  destruct x as [f r s rs ts c td], d as [html cv pd fd]; simpl.
  intros -> Hc.
  unfold prompt_or_feedback, show_frame, reveal_prompt; simpl. rewrite Hc.
  destruct s, (allow_response_before_complete cfg), (prompt cfg), cv, pd;
    reflexivity.
Qed.

Lemma waiting_display_direct (x : Vars) (d : Display) (h : Host) :
  responded x = false -> render_on_canvas cfg = false ->
  innerHTML d = EmptyString ->
  display (prompt_or_feedback cfg (show_frame cfg (mkTrial x d h))) =
  mkDisplay
    ((if showAnimation x
      then stimulus_markup (stimulus_at cfg (animate_frame x))
      else EmptyString)
     ++ (if allow_response_before_complete cfg || negb (showAnimation x)
         then prompt_markup cfg else EmptyString))%string
    (canvas d) (prompt_div d) (feedback_div d).
Proof.
  destruct x as [f r s rs ts c td], d as [html cv pd fd]; simpl.
  intros -> Hc ->.
  unfold prompt_or_feedback, show_frame, reveal_prompt, prompt_markup,
    stimulus_markup; simpl. rewrite Hc.
  destruct s, (allow_response_before_complete cfg), (prompt cfg); simpl;
    rewrite ?append_empty_r; reflexivity.
Qed.

Lemma feedback_display_canvas (x : Vars) (d : Display) (h : Host) :
  responded x = true -> render_on_canvas cfg = true ->
  display (prompt_or_feedback cfg (show_frame cfg (mkTrial x d h))) =
  mkDisplay (innerHTML d)
    (if showAnimation x then
       match canvas d with
       | Some _ => Some (Some (stimulus_at cfg (animate_frame x)))
       | None => None
       end
     else canvas d)
    (match prompt cfg with Some _ => None | None => prompt_div d end)
    (match feedback_div d with
     | Some _ => Some (feedback_text cfg (correct x))
     | None => None
     end).
Proof.
  destruct x as [f r s rs ts c td], d as [html cv pd fd],
    h as [n ai kl to tc fi g u]; simpl.
  intros -> Hc.
  unfold prompt_or_feedback, show_frame, arm_end_of_trial, show_feedback;
    simpl. rewrite Hc.
  destruct s, ts, (prompt cfg), cv, fd, g; reflexivity.
Qed.

Lemma display_before_drawing_canvas (w : Trial) :
  render_on_canvas cfg = true ->
  display (next_frame cfg (clear_direct_markup cfg w)) = display w.
Proof.
  intros Hc. rewrite display_next_frame. unfold clear_direct_markup.
  now rewrite Hc.
Qed.

Lemma display_before_drawing_direct (w : Trial) :
  render_on_canvas cfg = false ->
  display (next_frame cfg (clear_direct_markup cfg w)) =
  mkDisplay EmptyString (canvas (display w)) (prompt_div (display w))
    (feedback_div (display w)).
Proof.
  intros Hc. rewrite display_next_frame. unfold clear_direct_markup.
  now rewrite Hc.
Qed.

(** A tick before any response, in canvas mode. *)
Lemma display_tick_waiting_canvas (w : Trial) :
  responded (vars w) = false -> render_on_canvas cfg = true ->
  display (animate_tick cfg w) =
  mkDisplay (innerHTML (display w))
    (if showAnimation (tick_vars cfg (vars w)) then
       match canvas (display w) with
       | Some _ =>
           Some (Some (stimulus_at cfg (animate_frame (tick_vars cfg (vars w)))))
       | None => None
       end
     else None)
    (if allow_response_before_complete cfg
        || negb (showAnimation (tick_vars cfg (vars w))) then
       match prompt cfg, prompt_div (display w) with
       | Some _, Some _ => Some true
       | _, _ => prompt_div (display w)
       end
     else prompt_div (display w))
    (feedback_div (display w)).
Proof.
  intros Hr Hc. unfold animate_tick.
  destruct (frame_of_next_frame w) as (Hf & Hs & Hr' & _).
  rewrite (trial_eta (next_frame cfg (clear_direct_markup cfg w))).
  rewrite waiting_display_canvas by (trivial; congruence).
  now rewrite Hf, Hs, display_before_drawing_canvas.
Qed.

(** A tick before any response, in direct-markup mode. *)
Lemma display_tick_waiting_direct (w : Trial) :
  responded (vars w) = false -> render_on_canvas cfg = false ->
  innerHTML (display (animate_tick cfg w)) =
  ((if showAnimation (tick_vars cfg (vars w))
    then stimulus_markup
           (stimulus_at cfg (animate_frame (tick_vars cfg (vars w))))
    else EmptyString)
   ++ (if allow_response_before_complete cfg
          || negb (showAnimation (tick_vars cfg (vars w)))
       then prompt_markup cfg else EmptyString))%string.
Proof.
  intros Hr Hc. unfold animate_tick.
  destruct (frame_of_next_frame w) as (Hf & Hs & Hr' & _).
  rewrite (trial_eta (next_frame cfg (clear_direct_markup cfg w))).
  rewrite waiting_display_direct;
    [|congruence|assumption|now rewrite display_before_drawing_direct].
  now rewrite Hf, Hs.
Qed.

(** A tick after a response, in canvas mode. *)
Lemma display_tick_feedback_canvas (w : Trial) :
  responded (vars w) = true -> render_on_canvas cfg = true ->
  display (animate_tick cfg w) =
  mkDisplay (innerHTML (display w))
    (if showAnimation (tick_vars cfg (vars w)) then
       match canvas (display w) with
       | Some _ =>
           Some (Some (stimulus_at cfg (animate_frame (tick_vars cfg (vars w)))))
       | None => None
       end
     else canvas (display w))
    (match prompt cfg with Some _ => None | None => prompt_div (display w) end)
    (match feedback_div (display w) with
     | Some _ => Some (feedback_text cfg (correct (vars w)))
     | None => None
     end).
Proof.
  intros Hr Hc. unfold animate_tick.
  destruct (frame_of_next_frame w) as (Hf & Hs & Hr' & Hcor).
  rewrite (trial_eta (next_frame cfg (clear_direct_markup cfg w))).
  rewrite feedback_display_canvas by (trivial; congruence).
  now rewrite Hf, Hs, Hcor, display_before_drawing_canvas.
Qed.

(** X9.  A tick after a response, in canvas mode: the canvas is redrawn while the
    animation runs and left as it is afterwards, never removed; the prompt
    goes and the feedback text is written. *)
Theorem feedback_tick_keeps_canvas (w : Trial) :
  responded (vars w) = true -> render_on_canvas cfg = true ->
  display (animate_tick cfg w) =
  mkDisplay (innerHTML (display w))
    (if showAnimation (tick_vars cfg (vars w)) then
       match canvas (display w) with
       | Some _ =>
           Some (Some (stimulus_at cfg (animate_frame (tick_vars cfg (vars w)))))
       | None => None
       end
     else canvas (display w))
    (match prompt cfg with Some _ => None | None => prompt_div (display w) end)
    (match feedback_div (display w) with
     | Some _ => Some (feedback_text cfg (correct (vars w)))
     | None => None
     end).
Proof.
  intros Hr Hc. rewrite (display_tick_feedback_canvas w Hr Hc). reflexivity.
Qed.

(** *** The frames of the animation *)

Lemma responded_ticks (d : Display) (n : nat) :
  responded (vars (ticks cfg n (trial page d cfg))) = false.
Proof.
  induction n as [|n IH]; [reflexivity|].
  rewrite vars_ticks_S. tick_step. exact IH.
Qed.

Lemma frame_is_a_stimulus (n : nat) (q r : Z) :
  Z.of_nat n = q * L + r -> 0 <= r < L ->
  nth_error (stimuli cfg) (n mod List.length (stimuli cfg))%nat =
  Some (stimulus_at cfg r).
Proof.
  intros Hqr Hr.
  assert (Hmod : r = Z.of_nat (n mod List.length (stimuli cfg))%nat).
  { rewrite Nat2Z.inj_mod. apply Z.mod_unique with q; lia. }
  unfold stimulus_at. replace (r <? 0) with false by lia.
  rewrite Hmod, Nat2Z.id. apply nth_error_nth'.
  apply Nat.mod_upper_bound. lia.
Qed.

Lemma display_trial_canvas (d : Display) :
  render_on_canvas cfg = true ->
  display (ticks cfg 0 (trial page d cfg)) =
  mkDisplay EmptyString (Some None)
    (match prompt cfg with Some _ => Some false | None => None end)
    (Some EmptyString).
Proof.
  intros Hc. change (ticks cfg 0 (trial page d cfg)) with (trial page d cfg).
  unfold trial. cbn [display]. now rewrite Hc.
Qed.

(** X10.  In canvas mode, as long as the animation runs (ticks 1 to L * R) and no
    response came, tick n + 1 leaves on the canvas the stimulus of index
    n mod L; the prompt is visible from the first tick if responses are
    allowed before the end, hidden otherwise; nothing else is on the
    display. *)
Theorem canvas_shows_frames_in_order (d : Display) (n : nat) :
  render_on_canvas cfg = true ->
  1 <= L -> 1 <= R -> Z.of_nat (S n) <= L * R ->
  display (ticks cfg (S n) (trial page d cfg)) =
  mkDisplay EmptyString
    (Some (nth_error (stimuli cfg) (n mod List.length (stimuli cfg))%nat))
    (match prompt cfg with
     | Some _ => Some (allow_response_before_complete cfg)
     | None => None
     end)
    (Some EmptyString).
Proof.
  intros Hc HL HR. induction n as [|n IH]; intros Hn;
    destruct (vars_while_animating cfg page d _ HL HR Hn)
      as (q & r & Hqr & Hr & _ & Hv);
    change (ticks cfg (S ?m) ?w) with (animate_tick cfg (ticks cfg m w));
    rewrite display_tick_waiting_canvas by (trivial; apply responded_ticks);
    rewrite <- vars_ticks_S, Hv; cbn [showAnimation animate_frame negb];
    rewrite (frame_is_a_stimulus _ q r Hqr Hr), orb_false_r.
  - rewrite (display_trial_canvas d Hc).
    cbn [innerHTML canvas prompt_div feedback_div].
    now destruct (prompt cfg), (allow_response_before_complete cfg).
  - rewrite IH by lia.
    cbn [innerHTML canvas prompt_div feedback_div].
    now destruct (prompt cfg), (allow_response_before_complete cfg).
Qed.

(** X11.  In direct-markup mode, under the same conditions, the mount point holds
    after tick n + 1 exactly the image element of the stimulus of index
    n mod L, followed by the prompt if responses are allowed before the
    end. *)
Theorem markup_shows_frames_in_order (d : Display) (n : nat) :
  render_on_canvas cfg = false ->
  1 <= L -> 1 <= R -> Z.of_nat (S n) <= L * R ->
  exists src,
    nth_error (stimuli cfg) (n mod List.length (stimuli cfg))%nat = Some src /\
    innerHTML (display (ticks cfg (S n) (trial page d cfg))) =
    (stimulus_markup src
     ++ (if allow_response_before_complete cfg
         then prompt_markup cfg else EmptyString))%string.
Proof.
  intros Hc HL HR Hn.
  destruct (vars_while_animating cfg page d _ HL HR Hn)
    as (q & r & Hqr & Hr & _ & Hv).
  exists (stimulus_at cfg r). split; [now apply (frame_is_a_stimulus _ q r)|].
  change (ticks cfg (S n) ?w) with (animate_tick cfg (ticks cfg n w)).
  rewrite display_tick_waiting_direct by (trivial; apply responded_ticks).
  rewrite <- vars_ticks_S, Hv. cbn [showAnimation animate_frame negb].
  now rewrite orb_false_r.
Qed.

Lemma canvas_display_shape (d : Display) (n : nat) :
  render_on_canvas cfg = true ->
  exists cv b,
    display (ticks cfg n (trial page d cfg)) =
    mkDisplay EmptyString cv
      (match prompt cfg with Some _ => Some b | None => None end)
      (Some EmptyString).
Proof.
  intros Hc. induction n as [|n (cv & b & IH)].
  - rewrite (display_trial_canvas d Hc). now eexists _, false.
  - change (ticks cfg (S n) ?w) with (animate_tick cfg (ticks cfg n w)).
    rewrite display_tick_waiting_canvas by (trivial; apply responded_ticks).
    rewrite IH. cbn [innerHTML canvas prompt_div feedback_div].
    destruct (prompt cfg);
      destruct (allow_response_before_complete cfg || _).
    + now eexists _, true.
    + now eexists _, b.
    + now eexists _, true.
    + now eexists _, true.
Qed.

(** X12.  When the animation is over and no response came (every tick after tick
    L * R), the stimulus is gone and the prompt is shown: in canvas mode the
    canvas is removed and the prompt div visible, in direct-markup mode the
    mount point holds the prompt alone. *)
Theorem prompt_alone_after_the_animation (d : Display) (n : nat) :
  1 <= L -> 1 <= R -> L * R < Z.of_nat n ->
  (render_on_canvas cfg = true ->
   display (ticks cfg n (trial page d cfg)) =
   mkDisplay EmptyString None
     (match prompt cfg with Some _ => Some true | None => None end)
     (Some EmptyString)) /\
  (render_on_canvas cfg = false ->
   innerHTML (display (ticks cfg n (trial page d cfg))) = prompt_markup cfg).
Proof.
  intros HL HR Hn. destruct n as [|n]; [lia|].
  assert (Hs : showAnimation (tick_vars cfg (vars (ticks cfg n (trial page d cfg))))
               = false)
    by (rewrite <- vars_ticks_S; now apply animating_iff_ticks).
  change (ticks cfg (S n) ?w) with (animate_tick cfg (ticks cfg n w)).
  split; intros Hc.
  - rewrite display_tick_waiting_canvas by (trivial; apply responded_ticks).
    rewrite Hs, orb_true_r.
    destruct (canvas_display_shape d n Hc) as (cv & b & ->).
    cbn [innerHTML canvas prompt_div feedback_div].
    now destruct (prompt cfg).
  - rewrite display_tick_waiting_direct by (trivial; apply responded_ticks).
    now rewrite Hs, orb_true_r.
Qed.

End Display.

End DisplayProofs.

(** ** The trial on the clock *)

Module ClockProofs.
Import CategorizeAnimation AnimationProofs DisplayProofs.
#[local] Open Scope list_scope.

Section Clock.

Variable compareKeys : string -> string -> bool.
Variable cfg : TrialConfig.
Variable page : bool.

#[local] Abbreviation L := (Z.of_nat (List.length (stimuli cfg))).
#[local] Abbreviation R := (sequence_reps cfg).

(** *** The interval callback does not read the host's registrations *)

Lemma clear_direct_markup_host (x : Vars) (d : Display) (h h' : Host) :
  vars (clear_direct_markup cfg (mkTrial x d h)) =
    vars (clear_direct_markup cfg (mkTrial x d h')) /\
  display (clear_direct_markup cfg (mkTrial x d h)) =
    display (clear_direct_markup cfg (mkTrial x d h')).
Proof. unfold clear_direct_markup. now destruct (render_on_canvas cfg). Qed.

Lemma next_frame_host (x : Vars) (d : Display) (h h' : Host) :
  vars (next_frame cfg (mkTrial x d h)) = vars (next_frame cfg (mkTrial x d h')) /\
  display (next_frame cfg (mkTrial x d h)) =
    display (next_frame cfg (mkTrial x d h')).
Proof. now rewrite !vars_next_frame, !display_next_frame. Qed.

Lemma show_frame_host (x : Vars) (d : Display) (h h' : Host) :
  vars (show_frame cfg (mkTrial x d h)) = vars (show_frame cfg (mkTrial x d h')) /\
  display (show_frame cfg (mkTrial x d h)) =
    display (show_frame cfg (mkTrial x d h')).
Proof.
  unfold show_frame; simpl.
  now destruct (showAnimation x), (render_on_canvas cfg).
Qed.

Lemma prompt_or_feedback_host (x : Vars) (d : Display) (h h' : Host) :
  vars (prompt_or_feedback cfg (mkTrial x d h)) =
    vars (prompt_or_feedback cfg (mkTrial x d h')) /\
  display (prompt_or_feedback cfg (mkTrial x d h)) =
    display (prompt_or_feedback cfg (mkTrial x d h')).
Proof.
  destruct x as [f r s rs ts c td], h as [n ai kl to tc fi g u],
    h' as [n' ai' kl' to' tc' fi' g' u'].
  unfold prompt_or_feedback, arm_end_of_trial, show_feedback, reveal_prompt;
    simpl.
  now destruct rs, ts, s, (allow_response_before_complete cfg),
    (render_on_canvas cfg), (prompt cfg), g, g'.
Qed.

Lemma block_host_independent (f : Trial -> Trial) :
  (forall x d h h',
      vars (f (mkTrial x d h)) = vars (f (mkTrial x d h')) /\
      display (f (mkTrial x d h)) = display (f (mkTrial x d h'))) ->
  forall w w',
    vars w = vars w' -> display w = display w' ->
    vars (f w) = vars (f w') /\ display (f w) = display (f w').
Proof.
  intros Hf [x d h] [x' d' h']; simpl. intros <- <-. apply Hf.
Qed.

Lemma animate_tick_host_independent (w w' : Trial) :
  vars w = vars w' -> display w = display w' ->
  vars (animate_tick cfg w) = vars (animate_tick cfg w') /\
  display (animate_tick cfg w) = display (animate_tick cfg w').
Proof.
  intros Hv Hd. unfold animate_tick.
  destruct (block_host_independent _ clear_direct_markup_host w w' Hv Hd)
    as [Hv1 Hd1].
  destruct (block_host_independent _ next_frame_host _ _ Hv1 Hd1)
    as [Hv2 Hd2].
  destruct (block_host_independent _ show_frame_host _ _ Hv2 Hd2)
    as [Hv3 Hd3].
  exact (block_host_independent _ prompt_or_feedback_host _ _ Hv3 Hd3).
Qed.

Lemma ticks_host_independent (n : nat) (w w' : Trial) :
  vars w = vars w' -> display w = display w' ->
  vars (ticks cfg n w) = vars (ticks cfg n w') /\
  display (ticks cfg n w) = display (ticks cfg n w').
Proof.
  intros Hv Hd. induction n as [|n [IHv IHd]]; [now split|].
  change (ticks cfg (S n) ?v) with (animate_tick cfg (ticks cfg n v)).
  now apply animate_tick_host_independent.
Qed.

Lemma tick_event_is_animate_tick (t : Z) (w : Trial) :
  animate_interval (host w) <> None ->
  vars (deliver compareKeys cfg (t, Tick) w) = vars (animate_tick cfg w) /\
  display (deliver compareKeys cfg (t, Tick) w) = display (animate_tick cfg w).
Proof.
  intros Hi. cbn [deliver].
  destruct (animate_interval (host w)); [|congruence].
  change (vars (animate_tick cfg (set_now t w)) = vars (animate_tick cfg w) /\
          display (animate_tick cfg (set_now t w)) = display (animate_tick cfg w)).
  now apply animate_tick_host_independent.
Qed.

(** *** Without keys, the clock counts ticks *)

Lemma advance_fires_ticks (t : Z) :
  0 < frame_time cfg ->
  forall (n : nat) (w : Trial) (next : Z),
    animate_interval (host w) = Some next ->
    timeouts (host w) = [] ->
    responded (vars w) = false ->
    next + (Z.of_nat n - 1) * frame_time cfg <= t
      < next + Z.of_nat n * frame_time cfg ->
    exists w',
      advance compareKeys cfg n t w = Some w' /\
      vars w' = vars (ticks cfg n w) /\
      display w' = display (ticks cfg n w) /\
      timeouts (host w') = [] /\
      finished (host w') = finished (host w).
Proof.
  intros Hft. induction n as [|n IH]; intros w next Hi Hto Hr Ht;
    cbn [advance]; unfold next_event; rewrite Hi, Hto.
  - replace (next <=? t) with false by lia. exists w. now repeat split.
  - replace (next <=? t) with true by lia.
    assert (Hne : animate_interval (host w) <> None) by congruence.
    pose proof (host_tick_event compareKeys cfg next w Hne) as Hh.
    cbv zeta in Hh. rewrite Hr, Hto in Hh. cbn [andb] in Hh.
    destruct (tick_event_is_animate_tick next w Hne) as [Hv Hd].
    destruct (IH (deliver compareKeys cfg (next, Tick) w)
                (next + Z.max 0 (frame_time cfg)))
      as (w' & Hadv & Hv' & Hd' & Hto' & Hfin').
    + now rewrite Hh.
    + now rewrite Hh.
    + rewrite Hv, vars_animate_tick. tick_step. exact Hr.
    + lia.
    + exists w'. split; [exact Hadv|].
      destruct (ticks_host_independent n _ _ Hv Hd) as [Ev Ed].
      rewrite ticks_succ_r.
      split; [congruence|]. split; [congruence|]. split; [exact Hto'|].
      rewrite Hfin', Hh. reflexivity.
Qed.

Lemma state_at_time (d : Display) (t : Z) :
  0 < frame_time cfg -> 0 <= t ->
  exists w,
    advance compareKeys cfg (Z.to_nat (t / frame_time cfg)) t (trial page d cfg)
    = Some w /\
    vars w = vars (ticks cfg (Z.to_nat (t / frame_time cfg)) (trial page d cfg)) /\
    display w = display (ticks cfg (Z.to_nat (t / frame_time cfg)) (trial page d cfg)) /\
    finished (host w) = [].
Proof.
  intros Hft Ht.
  pose proof (Z.div_mod t (frame_time cfg) ltac:(lia)) as Hdm.
  pose proof (Z.mod_pos_bound t (frame_time cfg) Hft) as Hmod.
  assert (Hq : 0 <= t / frame_time cfg) by (apply Z.div_pos; lia).
  destruct (advance_fires_ticks t Hft (Z.to_nat (t / frame_time cfg))
              (trial page d cfg) (frame_time cfg))
    as (w & Hadv & Hv & Hd & _ & Hfin).
  - cbn. f_equal. lia.
  - reflexivity.
  - reflexivity.
  - rewrite Z2Nat.id by exact Hq. nia.
  - exists w. now repeat split.
Qed.

(** X13.  With no key pressed and a positive frame time, at time [t] the trial is
    in the state that [t / frame_time] ticks produce: the clock has fired
    exactly that many interval callbacks and nothing else. *)
Theorem clock_counts_ticks (d : Display) (t : Z) :
  0 < frame_time cfg -> 0 <= t ->
  exists w,
    advance compareKeys cfg (Z.to_nat (t / frame_time cfg)) t (trial page d cfg)
    = Some w /\
    vars w = vars (ticks cfg (Z.to_nat (t / frame_time cfg)) (trial page d cfg)) /\
    display w = display (ticks cfg (Z.to_nat (t / frame_time cfg)) (trial page d cfg)) /\
    finished (host w) = [].
Proof.
  intros Hft Ht.
  destruct (state_at_time d t Hft Ht) as (w & Hadv & Hv & Hd & Hfin).
  exists w. split; [exact Hadv|]. split; [exact Hv|]. split; assumption.
Qed.

(** X14.  The length of the animation on the clock: for a sequence of length
    L >= 1, a finite target R >= 1 and no key pressed, [showAnimation] is
    false at time [t] exactly from (L * R + 1) * frame_time on. *)
Theorem animation_lasts_LR_plus_1_frames (d : Display) (t : Z) :
  0 < frame_time cfg -> 0 <= t -> 1 <= L -> 1 <= R ->
  exists w,
    advance compareKeys cfg (Z.to_nat (t / frame_time cfg)) t (trial page d cfg)
    = Some w /\
    (showAnimation (vars w) = false <-> (L * R + 1) * frame_time cfg <= t).
Proof.
  intros Hft Ht HL HR.
  destruct (state_at_time d t Hft Ht) as (w & Hadv & Hv & _).
  exists w. split; [exact Hadv|]. rewrite Hv.
  rewrite (animating_iff_ticks cfg page d _ HL HR).
  assert (Hq : 0 <= t / frame_time cfg) by (apply Z.div_pos; lia).
  rewrite Z2Nat.id by exact Hq.
  pose proof (Z.div_mod t (frame_time cfg) ltac:(lia)) as Hdm.
  pose proof (Z.mod_pos_bound t (frame_time cfg) Hft) as Hmod.
  split; intros H; nia.
Qed.

End Clock.

End ClockProofs.

(** ** The end of the trial, the feedback text and the scene *)

Module EndProofs.
Import CategorizeAnimation AnimationProofs DisplayProofs ClockProofs.
#[local] Open Scope list_scope.

Section End_of_trial.

Variable compareKeys : string -> string -> bool.
Variable cfg : TrialConfig.
Variable page : bool.

Lemma display_after_response (info : KeyInfo) (w : Trial) :
  display (after_response compareKeys cfg info w) = display w.
Proof.
  unfold after_response.
  destruct (negb (allow_response_before_complete cfg) && _); [reflexivity|].
  now destruct (compareKeys (key_answer cfg) (key info)).
Qed.

Lemma feedback_div_after_tick (w : Trial) :
  render_on_canvas cfg = true ->
  feedback_div (display w) <> None ->
  feedback_div (display (animate_tick cfg w)) <> None.
Proof.
  intros Hc Hfd. destruct (responded (vars w)) eqn:Hr.
  - rewrite display_tick_feedback_canvas by assumption. cbn [feedback_div].
    destruct (feedback_div (display w)); [discriminate|congruence].
  - now rewrite display_tick_waiting_canvas by assumption.
Qed.

(** In canvas mode the feedback div stays mounted until the trial ends. *)
Lemma feedback_div_attached (d : Display) (evs : list (Z * Event)) :
  render_on_canvas cfg = true ->
  finished (host (run compareKeys cfg evs (trial page d cfg))) = [] ->
  feedback_div (display (run compareKeys cfg evs (trial page d cfg))) <> None.
Proof.
  intros Hc. induction evs as [|[t e] evs IH] using rev_ind.
  - intros _. unfold run; cbn [fold_left]. unfold trial; cbn [display].
    rewrite Hc. discriminate.
  - rewrite run_snoc. intros Hfin.
    pose proof (finished_deliver_nil _ _ _ _ Hfin) as Hfin'.
    specialize (IH Hfin'). destruct e as [|info|].
    + destruct (animate_interval (host (run compareKeys cfg evs (trial page d cfg))))
        eqn:Ei.
      * destruct (tick_event_is_animate_tick compareKeys cfg t _
                    ltac:(rewrite Ei; discriminate)) as [_ ->].
        now apply feedback_div_after_tick.
      * cbn [deliver]. now rewrite Ei.
    + cbn [deliver]. destruct (keyboard_listener (host _) && _); [|exact IH].
      now rewrite display_after_response.
    + destruct (timeouts (host (run compareKeys cfg evs (trial page d cfg)))) eqn:Et.
      * cbn [deliver]. now rewrite Et.
      * rewrite host_timeout_event in Hfin by congruence.
        cbn [finished] in Hfin. now destruct (finished (host _)).
Qed.

(** X15.  On a page whose global object holds the engine as [jsPsych] (the
    interval callback is a [function] and reads the engine from there), in
    every state of a trial in which a response was accepted and the timer is
    not armed yet, with a positive frame time: the next tick, due at time
    [next], shows the feedback and arms the timer; the feedback stays on and
    the trial goes on until [next + feedback_duration] (a negative duration
    counting as 0), when [finishTrial] receives the record of the response,
    the display is emptied and the interval cleared. *)
Theorem trial_ends_feedback_duration_after_next_tick
    (d : Display) (evs : list (Z * Event)) (w : Trial) (next : Z) :
  w = run compareKeys cfg evs (trial page d cfg) ->
  global_jsPsych (host w) = true ->
  0 < frame_time cfg ->
  responded (vars w) = true ->
  timeoutSet (vars w) = false ->
  finished (host w) = [] ->
  animate_interval (host w) = Some next ->
  (forall t, next <= t < next + Z.max 0 (feedback_duration cfg) ->
     exists fuel w',
       advance compareKeys cfg fuel t w = Some w' /\
       feedback_shown cfg w' /\
       finished (host w') = []) /\
  (exists fuel w',
     advance compareKeys cfg fuel (next + Z.max 0 (feedback_duration cfg)) w
     = Some w' /\
     finished (host w') =
       [(next + Z.max 0 (feedback_duration cfg), trial_data (vars w))] /\
     display w' = empty_display /\
     animate_interval (host w') = None).
Proof.
  intros Hw Hg Hft Hr Hts Hfin Hi.
  assert (Hto : timeouts (host w) = []).
  { destruct (AnimationMore.registrations_invariant compareKeys cfg page d evs)
      as (_ & Hguard & _).
    rewrite <- Hw in Hguard. now apply Hguard. }
  assert (Hfd : render_on_canvas cfg = true -> feedback_div (display w) <> None).
  { intros Hc. rewrite Hw. apply feedback_div_attached; [exact Hc|].
    now rewrite <- Hw. }
  clear Hw.
  pose proof (tick_opens_feedback_phase compareKeys cfg next next w
                Hg Hr Hts Hi Hto Hfin Hfd) as Hphase.
  assert (Hnext : next_event w = Some (next, Tick))
    by (unfold next_event; now rewrite Hi, Hto).
  remember (deliver compareKeys cfg (next, Tick) w) as w2 eqn:E2.
  replace (Z.max 0 (frame_time cfg)) with (frame_time cfg) in Hphase by lia.
  split.
  - intros t Ht.
    destruct (advance_within_feedback_phase compareKeys cfg _ _ _ t
                Hft (proj2 Ht) (Z.to_nat (t - next)) _ _ Hphase)
      as (next' & w' & Hadv & Hph'); [nia|].
    exists (S (Z.to_nat (t - next))), w'.
    split.
    { cbn [advance]. rewrite Hnext.
      replace (next <=? t) with true by lia. now rewrite <- E2. }
    destruct Hph' as (_ & _ & _ & _ & _ & _ & Hfin' & Hshown).
    now split.
  - destruct (advance_to_end_of_feedback compareKeys cfg _ _ _
                Hft (Z.to_nat (Z.max 0 (feedback_duration cfg))) _ _ Hphase)
      as (w' & Hadv & Hfin' & Hdisp & Hi' & _); [nia|].
    exists (S (S (Z.to_nat (Z.max 0 (feedback_duration cfg))))), w'.
    split; [|now repeat split].
    cbn [advance]. rewrite Hnext.
    replace (next <=? next + Z.max 0 (feedback_duration cfg)) with true by lia.
    now rewrite <- E2.
Qed.


(** *** The feedback text *)

#[local] Abbreviation template c :=
  (if match c with Some true => true | _ => false end
   then correct_text cfg else incorrect_text cfg).

Lemma split_first_at_first_percent (pre post : string) :
  JS.lacks "%" pre = true ->
  JS.split_first "%ANS%" (pre ++ "%ANS%" ++ post)%string = Some (pre, post).
Proof.
  induction pre as [|c pre IH]; intros H.
  - reflexivity.
  - cbn [JS.lacks] in H. apply andb_true_iff in H as [Hc Hpre].
    apply negb_true_iff in Hc.
    change ((String c pre ++ "%ANS%" ++ post)%string)
      with (String c (pre ++ "%ANS%" ++ post)%string).
    cbn [JS.split_first JS.strip_prefix]. rewrite Hc, (IH Hpre). reflexivity.
Qed.

(** X16.  A template in which the token [%ANS%] does not occur is shown as it is,
    whatever the answer label. *)
Theorem feedback_without_token_is_the_template (c : option bool) :
  absent "%ANS%" (template c) ->
  feedback_text cfg c = template c.
Proof.
  intros Habs. rewrite feedback_text_selection. unfold JS.replace.
  destruct (JS.split_first "%ANS%" (template c)) as [[pre post]|] eqn:E;
    [|reflexivity].
  apply JSFacts.split_first_sound in E. now elim (Habs pre post).
Qed.

(** X17.  The first token of the template, and only the first, is replaced: when
    the template is [pre ++ "%ANS%" ++ post] with no percent sign in [pre],
    and the text of the answer label holds no dollar sign, the feedback is
    [pre], the label and [post], where [post] is left as it is even if it
    holds further tokens.  A [null] label reads [null]. *)
Theorem feedback_replaces_the_first_token (c : option bool) (pre post : string) :
  template c = (pre ++ "%ANS%" ++ post)%string ->
  JS.lacks "%" pre = true ->
  JS.dollar_free (JS.to_string (text_answer cfg)) = true ->
  feedback_text cfg c = (pre ++ JS.to_string (text_answer cfg) ++ post)%string.
Proof.
  intros Ht Hpre Hfree. rewrite feedback_text_selection, Ht.
  apply JSFacts.replace_plain; [|exact Hfree].
  now apply split_first_at_first_percent.
Qed.

End End_of_trial.

End EndProofs.

(** ** More on the scene renderer *)

Module GridMore.
Import VslGridScene.
#[local] Open Scope list_scope.

Lemma nth_error_fit (n col : nat) (cells : list Cell) :
  (col < n)%nat ->
  nth_error (fit n cells) col =
  Some (match nth_error cells col with
        | Some c => c
        | None => Src "undefined"
        end).
Proof.
  intros Hcol. unfold fit. rewrite nth_error_firstn.
  replace (col <? n)%nat with true by (symmetry; now apply Nat.ltb_lt).
  destruct (Nat.lt_ge_cases col (List.length cells)) as [Hlt|Hge].
  - rewrite nth_error_app1 by exact Hlt.
    destruct (nth_error cells col) eqn:E; [reflexivity|].
    apply nth_error_None in E. lia.
  - rewrite nth_error_app2 by exact Hge.
    rewrite nth_error_repeat by lia.
    apply nth_error_None in Hge. now rewrite Hge.
Qed.

Lemma length_fit (n : nat) (cells : list Cell) : List.length (fit n cells) = n.
Proof.
  unfold fit. rewrite length_firstn, length_app, repeat_length. lia.
Qed.

Lemma fit_own_length (cells : list Cell) : fit (List.length cells) cells = cells.
Proof.
  unfold fit.
  rewrite firstn_app, Nat.sub_diag, firstn_all. cbn [firstn]. apply app_nil_r.
Qed.

Section Markup.

Variable image_size : list Z.

Lemma cell_html_of_missing_cell (row col : nat) (cells : list Cell) :
  cell_html image_size row col (nth_error cells col) =
  cell_html image_size row col
    (Some (match nth_error cells col with
           | Some c => c
           | None => Src "undefined"
           end)).
Proof. now destruct (nth_error cells col). Qed.

Lemma cols_html_fit (n k : nat) (row : nat) (cells : list Cell) :
  forall col, (col + k <= n)%nat ->
    cols_html image_size k row col (fit n cells) =
    cols_html image_size k row col cells.
Proof.
  induction k as [|k IH]; intros col Hcol; [reflexivity|].
  cbn [cols_html]. rewrite nth_error_fit by lia.
  rewrite <- cell_html_of_missing_cell. now rewrite IH by lia.
Qed.

Lemma rows_html_fit (n : nat) (rows : Grid) :
  forall row,
    rows_html image_size n row (map (fit n) rows) =
    rows_html image_size n row rows.
Proof.
  induction rows as [|cells rows IH]; intros row; [reflexivity|].
  cbn [map rows_html]. now rewrite cols_html_fit, IH by lia.
Qed.

(** X18.  The markup of a grid is the markup of the rectangular grid that has its
    first row: rows longer than the first row are cut to its length, and the
    cells missing from shorter rows are shown as images named [undefined]. *)
Theorem markup_of_ragged_grid (pattern : Grid) :
  generate_stimulus image_size (rectangular pattern) =
    generate_stimulus image_size pattern /\
  (forall row0 rest, pattern = row0 :: rest ->
     hd [] (rectangular pattern) = row0 /\
     Forall (fun r => List.length r = List.length row0) (rectangular pattern)).
Proof.
  destruct pattern as [|row0 rest]; [split; [reflexivity|discriminate]|].
  split.
  - unfold rectangular. cbn [map generate_stimulus].
    rewrite length_fit.
    change (fit (List.length row0) row0 :: map (fit (List.length row0)) rest)
      with (map (fit (List.length row0)) (row0 :: rest)).
    now rewrite rows_html_fit.
  - intros r0 rst E. injection E as <- <-.
    unfold rectangular. cbn [map hd]. split; [apply fit_own_length|].
    apply Forall_forall. intros r Hr.
    change (fit (List.length row0) row0 :: map (fit (List.length row0)) rest)
      with (map (fit (List.length row0)) (row0 :: rest)) in Hr.
    apply in_map_iff in Hr as (r' & <- & _). apply length_fit.
Qed.

End Markup.

(** X19.  However often the host's timer fires after [trial], the scene ends once:
    the first firing empties the mount point and reports the grid, every
    later firing finds nothing scheduled and changes nothing. *)
Theorem scene_ends_once (previous : string) (cfg : TrialConfig) (s : Scene) (n : nat) :
  trial (mount previous) cfg = Some s ->
  Nat.iter (S n) (fire_timeout cfg) s =
  mkScene EmptyString [] [mkTrialData (stimuli cfg)].
Proof.
  unfold trial.
  destruct (generate_stimulus (image_size cfg) (stimuli cfg)); [|discriminate].
  intros E. injection E as <-.
  induction n as [|n IH]; [reflexivity|].
  change (Nat.iter (S (S n)) (fire_timeout cfg) ?x)
    with (fire_timeout cfg (Nat.iter (S n) (fire_timeout cfg) x)).
  now rewrite IH.
Qed.

End GridMore.

(** ** Instances of the properties above *)

Module MoreInstances.
Import CategorizeAnimation AnimationProofs.
#[local] Open Scope list_scope.

Lemma animation_never_restarts_scenario :
  showAnimation
    (vars (run String.eqb (scenario 2000) (tick_events 100 7) scenario_start))
  = false /\
  showAnimation
    (vars (run String.eqb (scenario 2000)
             (tick_events 100 7 ++ [(750, KeyPress (key_j 750)); (800, Tick)])
             scenario_start))
  = false.
Proof.
  assert (H : showAnimation
                (vars (run String.eqb (scenario 2000) (tick_events 100 7)
                         (trial true empty_display (scenario 2000)))) = false)
    by (vm_compute; reflexivity).
  split; [exact H|].
  exact (AnimationMore.animation_never_restarts String.eqb (scenario 2000)
           true empty_display (tick_events 100 7)
           [(750, KeyPress (key_j 750)); (800, Tick)] H).
Defined.

Lemma finished_trial_is_final_scenario :
  finished (host (run String.eqb (scenario 2000) whole_trial scenario_start))
  <> [] /\
  run String.eqb (scenario 2000)
    (whole_trial ++ [(2900, Tick); (3000, KeyPress (key_j 3000))])
    scenario_start
  = run String.eqb (scenario 2000) whole_trial scenario_start.
Proof.
  assert (H : finished
                (host (run String.eqb (scenario 2000) whole_trial
                         (trial true empty_display (scenario 2000)))) <> [])
    by (vm_compute; discriminate).
  split; [exact H|].
  exact (proj2 (AnimationMore.finished_trial_is_final String.eqb (scenario 2000)
                  true empty_display whole_trial
                  [(2900, Tick); (3000, KeyPress (key_j 3000))] H)).
Defined.

Lemma first_response_is_kept_scenario :
  responded (vars (run String.eqb (scenario 2000) answered_run scenario_start))
  = true /\
  trial_data
    (vars (run String.eqb (scenario 2000)
             (answered_run ++ [(760, KeyPress (mkKeyInfo "k" 760)); (800, Tick)])
             scenario_start))
  = trial_data
      (vars (run String.eqb (scenario 2000) answered_run scenario_start)).
Proof.
  assert (H : responded
                (vars (run String.eqb (scenario 2000) answered_run
                         (trial true empty_display (scenario 2000)))) = true)
    by (vm_compute; reflexivity).
  split; [exact H|].
  exact (proj1 (proj2 (proj2
           (AnimationMore.first_response_is_kept String.eqb (scenario 2000)
              true empty_display answered_run
              [(760, KeyPress (mkKeyInfo "k" 760)); (800, Tick)] H)))).
Defined.

Lemma open_gate_accepts_key_early :
  (responded
     (vars (run String.eqb early [(100, Tick)] (trial true empty_display early)))
   = false /\
   (allow_response_before_complete early = true \/
    showAnimation
      (vars (run String.eqb early [(100, Tick)] (trial true empty_display early)))
    = false) /\
   valid_response String.eqb early (key (mkKeyInfo "k" 150)) = true) /\
  trial_data
    (vars (run String.eqb early ([(100, Tick)] ++ [(150, KeyPress (mkKeyInfo "k" 150))])
             (trial true empty_display early)))
  = Some (mkTrialData ["a"; "b"; "c"] 150 false "k").
Proof.
  assert (H1 : responded
                 (vars (run String.eqb early [(100, Tick)]
                          (trial true empty_display early))) = false)
    by (vm_compute; reflexivity).
  assert (H2 : allow_response_before_complete early = true \/
               showAnimation
                 (vars (run String.eqb early [(100, Tick)]
                          (trial true empty_display early))) = false)
    by (left; reflexivity).
  assert (H3 : valid_response String.eqb early (key (mkKeyInfo "k" 150)) = true)
    by reflexivity.
  split; [split; [exact H1|split; [exact H2|exact H3]]|].
  exact (proj1 (proj2 (proj2
           (AnimationMore.open_gate_accepts_key String.eqb early true empty_display
              [(100, Tick)] 150 (mkKeyInfo "k" 150) H1 H2 H3)))).
Defined.

Lemma unbounded_trial_never_ends_instance :
  (sequence_reps unbounded = -1 /\
   allow_response_before_complete unbounded = false) /\
  finished
    (host (run String.eqb unbounded
             (tick_events 100 50 ++ [(5050, KeyPress (key_j 5050))])
             unbounded_start))
  = [].
Proof.
  assert (H1 : sequence_reps unbounded = -1) by reflexivity.
  assert (H2 : allow_response_before_complete unbounded = false) by reflexivity.
  split; [split; [exact H1|exact H2]|].
  exact (proj2 (proj2
           (AnimationMore.unbounded_trial_never_ends String.eqb unbounded
              true empty_display
              (tick_events 100 50 ++ [(5050, KeyPress (key_j 5050))]) H1 H2))).
Defined.

Lemma animation_depends_on_ticks_only_scenario :
  finished (host (run String.eqb (scenario 2000) answered_run scenario_start))
  = [] /\
  animation_state
    (vars (run String.eqb (scenario 2000) answered_run scenario_start))
  = animation_state
      (vars (ticks (scenario 2000) (count_ticks answered_run) scenario_start)).
Proof.
  assert (H : finished
                (host (run String.eqb (scenario 2000) answered_run
                         (trial true empty_display (scenario 2000)))) = [])
    by (vm_compute; reflexivity).
  split; [exact H|].
  exact (DisplayProofs.animation_depends_on_ticks_only String.eqb
           (scenario 2000) true empty_display answered_run H).
Defined.

Lemma animation_over_after_LR_ticks_scenario :
  (1 <= Z.of_nat (List.length (stimuli (scenario 2000))) /\
   1 <= sequence_reps (scenario 2000) /\
   finished (host (run String.eqb (scenario 2000) answered_run scenario_start))
   = []) /\
  (showAnimation
     (vars (run String.eqb (scenario 2000) answered_run scenario_start)) = false
   <-> Z.of_nat (List.length (stimuli (scenario 2000)))
       * sequence_reps (scenario 2000)
       < Z.of_nat (count_ticks answered_run)).
Proof.
  assert (H1 : 1 <= Z.of_nat (List.length (stimuli (scenario 2000))))
    by (vm_compute; discriminate).
  assert (H2 : 1 <= sequence_reps (scenario 2000))
    by (vm_compute; discriminate).
  assert (H3 : finished
                 (host (run String.eqb (scenario 2000) answered_run
                          (trial true empty_display (scenario 2000)))) = [])
    by (vm_compute; reflexivity).
  split; [split; [exact H1|split; [exact H2|exact H3]]|].
  exact (DisplayProofs.animation_over_after_LR_ticks String.eqb
           (scenario 2000) true empty_display answered_run H1 H2 H3).
Defined.

Lemma feedback_tick_keeps_canvas_early :
  (responded
     (vars (run String.eqb early [(100, Tick); (150, KeyPress (key_j 150))]
              (trial true empty_display early))) = true /\
   render_on_canvas early = true) /\
  canvas
    (display
       (animate_tick early
          (run String.eqb early [(100, Tick); (150, KeyPress (key_j 150))]
             (trial true empty_display early))))
  = Some (Some "b"%string).
Proof.
  assert (H1 : responded
                 (vars (run String.eqb early
                          [(100, Tick); (150, KeyPress (key_j 150))]
                          (trial true empty_display early))) = true)
    by (vm_compute; reflexivity).
  assert (H2 : render_on_canvas early = true) by reflexivity.
  split; [split; [exact H1|exact H2]|].
  rewrite (DisplayProofs.feedback_tick_keeps_canvas early _ H1 H2).
  vm_compute. reflexivity.
Defined.

Lemma canvas_shows_frames_in_order_scenario :
  (render_on_canvas (scenario 2000) = true /\
   1 <= Z.of_nat (List.length (stimuli (scenario 2000))) /\
   1 <= sequence_reps (scenario 2000) /\
   Z.of_nat 5 <=
     Z.of_nat (List.length (stimuli (scenario 2000)))
     * sequence_reps (scenario 2000)) /\
  canvas (display (ticks (scenario 2000) 5 scenario_start))
  = Some (Some "b"%string).
Proof.
  assert (H0 : render_on_canvas (scenario 2000) = true) by reflexivity.
  assert (H1 : 1 <= Z.of_nat (List.length (stimuli (scenario 2000))))
    by (vm_compute; discriminate).
  assert (H2 : 1 <= sequence_reps (scenario 2000))
    by (vm_compute; discriminate).
  assert (H3 : Z.of_nat 5 <=
               Z.of_nat (List.length (stimuli (scenario 2000)))
               * sequence_reps (scenario 2000))
    by (vm_compute; discriminate).
  split; [split; [exact H0|split; [exact H1|split; [exact H2|exact H3]]]|].
  unfold scenario_start.
  rewrite (DisplayProofs.canvas_shows_frames_in_order (scenario 2000)
             true empty_display 4 H0 H1 H2 H3).
  reflexivity.
Defined.

Lemma markup_shows_frames_in_order_direct :
  (render_on_canvas direct_markup = false /\
   1 <= Z.of_nat (List.length (stimuli direct_markup)) /\
   1 <= sequence_reps direct_markup /\
   Z.of_nat 5 <=
     Z.of_nat (List.length (stimuli direct_markup))
     * sequence_reps direct_markup) /\
  exists src,
    nth_error (stimuli direct_markup)
      (4 mod List.length (stimuli direct_markup))%nat = Some src /\
    innerHTML (display (ticks direct_markup 5 (trial true empty_display direct_markup)))
    = (stimulus_markup src
       ++ (if allow_response_before_complete direct_markup
           then prompt_markup direct_markup else EmptyString))%string.
Proof.
  assert (H0 : render_on_canvas direct_markup = false) by reflexivity.
  assert (H1 : 1 <= Z.of_nat (List.length (stimuli direct_markup)))
    by (vm_compute; discriminate).
  assert (H2 : 1 <= sequence_reps direct_markup)
    by (vm_compute; discriminate).
  assert (H3 : Z.of_nat 5 <=
               Z.of_nat (List.length (stimuli direct_markup))
               * sequence_reps direct_markup)
    by (vm_compute; discriminate).
  split; [split; [exact H0|split; [exact H1|split; [exact H2|exact H3]]]|].
  exact (DisplayProofs.markup_shows_frames_in_order direct_markup
           true empty_display 4 H0 H1 H2 H3).
Defined.

Lemma prompt_alone_after_the_animation_early :
  (1 <= Z.of_nat (List.length (stimuli early)) /\
   1 <= sequence_reps early /\
   Z.of_nat (List.length (stimuli early)) * sequence_reps early < Z.of_nat 8 /\
   render_on_canvas early = true) /\
  display (ticks early 8 (trial true empty_display early))
  = mkDisplay EmptyString None (Some true) (Some EmptyString).
Proof.
  assert (H1 : 1 <= Z.of_nat (List.length (stimuli early)))
    by (vm_compute; discriminate).
  assert (H2 : 1 <= sequence_reps early) by (vm_compute; discriminate).
  assert (H3 : Z.of_nat (List.length (stimuli early)) * sequence_reps early
               < Z.of_nat 8)
    by (vm_compute; reflexivity).
  assert (H4 : render_on_canvas early = true) by reflexivity.
  split; [split; [exact H1|split; [exact H2|split; [exact H3|exact H4]]]|].
  exact (proj1 (DisplayProofs.prompt_alone_after_the_animation early
                  true empty_display 8 H1 H2 H3) H4).
Defined.

Lemma clock_counts_ticks_scenario :
  (0 < frame_time (scenario 2000) /\ 0 <= 650) /\
  exists w,
    advance String.eqb (scenario 2000)
      (Z.to_nat (650 / frame_time (scenario 2000))) 650 scenario_start = Some w /\
    vars w =
      vars (ticks (scenario 2000) (Z.to_nat (650 / frame_time (scenario 2000)))
              scenario_start).
Proof.
  assert (H1 : 0 < frame_time (scenario 2000)) by reflexivity.
  assert (H2 : 0 <= 650) by discriminate.
  split; [split; [exact H1|exact H2]|].
  destruct (ClockProofs.clock_counts_ticks String.eqb (scenario 2000)
              true empty_display 650 H1 H2) as (w & Hadv & Hv & _).
  exists w. split; [exact Hadv|exact Hv].
Defined.

Lemma animation_lasts_LR_plus_1_frames_scenario :
  (0 < frame_time (scenario 2000) /\ 0 <= 700 /\
   1 <= Z.of_nat (List.length (stimuli (scenario 2000))) /\
   1 <= sequence_reps (scenario 2000)) /\
  exists w,
    advance String.eqb (scenario 2000)
      (Z.to_nat (700 / frame_time (scenario 2000))) 700 scenario_start = Some w /\
    (showAnimation (vars w) = false <->
     (Z.of_nat (List.length (stimuli (scenario 2000)))
      * sequence_reps (scenario 2000) + 1) * frame_time (scenario 2000) <= 700).
Proof.
  assert (H1 : 0 < frame_time (scenario 2000)) by reflexivity.
  assert (H2 : 0 <= 700) by discriminate.
  assert (H3 : 1 <= Z.of_nat (List.length (stimuli (scenario 2000))))
    by (vm_compute; discriminate).
  assert (H4 : 1 <= sequence_reps (scenario 2000))
    by (vm_compute; discriminate).
  split; [split; [exact H1|split; [exact H2|split; [exact H3|exact H4]]]|].
  exact (ClockProofs.animation_lasts_LR_plus_1_frames String.eqb (scenario 2000)
           true empty_display 700 H1 H2 H3 H4).
Defined.

Lemma trial_ends_feedback_duration_after_next_tick_scenario :
  (global_jsPsych
     (host (run String.eqb (scenario 2000) answered_run
              (trial true empty_display (scenario 2000)))) = true /\
   0 < frame_time (scenario 2000) /\
   responded
     (vars (run String.eqb (scenario 2000) answered_run
              (trial true empty_display (scenario 2000)))) = true /\
   timeoutSet
     (vars (run String.eqb (scenario 2000) answered_run
              (trial true empty_display (scenario 2000)))) = false /\
   finished
     (host (run String.eqb (scenario 2000) answered_run
              (trial true empty_display (scenario 2000)))) = [] /\
   animate_interval
     (host (run String.eqb (scenario 2000) answered_run
              (trial true empty_display (scenario 2000)))) = Some 800) /\
  exists fuel w',
    advance String.eqb (scenario 2000) fuel
      (800 + Z.max 0 (feedback_duration (scenario 2000)))
      (run String.eqb (scenario 2000) answered_run
         (trial true empty_display (scenario 2000)))
    = Some w' /\
    finished (host w') =
      [(800 + Z.max 0 (feedback_duration (scenario 2000)),
        trial_data
          (vars (run String.eqb (scenario 2000) answered_run
                   (trial true empty_display (scenario 2000)))))] /\
    display w' = empty_display /\
    animate_interval (host w') = None.
Proof.
  assert (H0 : global_jsPsych
                 (host (run String.eqb (scenario 2000) answered_run
                          (trial true empty_display (scenario 2000)))) = true)
    by (vm_compute; reflexivity).
  assert (H1 : 0 < frame_time (scenario 2000)) by reflexivity.
  assert (H2 : responded
                 (vars (run String.eqb (scenario 2000) answered_run
                          (trial true empty_display (scenario 2000)))) = true)
    by (vm_compute; reflexivity).
  assert (H3 : timeoutSet
                 (vars (run String.eqb (scenario 2000) answered_run
                          (trial true empty_display (scenario 2000)))) = false)
    by (vm_compute; reflexivity).
  assert (H4 : finished
                 (host (run String.eqb (scenario 2000) answered_run
                          (trial true empty_display (scenario 2000)))) = [])
    by (vm_compute; reflexivity).
  assert (H5 : animate_interval
                 (host (run String.eqb (scenario 2000) answered_run
                          (trial true empty_display (scenario 2000)))) = Some 800)
    by (vm_compute; reflexivity).
  split; [split; [exact H0|split; [exact H1|split; [exact H2|split;
            [exact H3|split; [exact H4|exact H5]]]]]|].
  exact (proj2 (EndProofs.trial_ends_feedback_duration_after_next_tick
                  String.eqb (scenario 2000) true empty_display answered_run
                  _ 800 eq_refl H0 H1 H2 H3 H4 H5)).
Defined.

Lemma feedback_without_token_is_the_template_scenario :
  absent "%ANS%" (correct_text (scenario 2000)) /\
  feedback_text (scenario 2000) (Some true) = "Correct."%string.
Proof.
  assert (H : absent "%ANS%" (correct_text (scenario 2000)))
    by (unfold absent; apply JSFacts.split_first_complete;
        vm_compute; reflexivity).
  split; [exact H|].
  exact (EndProofs.feedback_without_token_is_the_template (scenario 2000)
           (Some true) H).
Defined.

Lemma feedback_replaces_the_first_token_twice :
  (correct_text twice_labelled = ("Answer: " ++ "%ANS%" ++ " (%ANS%)")%string /\
   JS.lacks "%" "Answer: " = true /\
   JS.dollar_free (JS.to_string (text_answer twice_labelled)) = true) /\
  feedback_text twice_labelled (Some true) = "Answer: cat (%ANS%)"%string.
Proof.
  assert (H1 : correct_text twice_labelled
               = ("Answer: " ++ "%ANS%" ++ " (%ANS%)")%string) by reflexivity.
  assert (H2 : JS.lacks "%" "Answer: " = true) by reflexivity.
  assert (H3 : JS.dollar_free (JS.to_string (text_answer twice_labelled)) = true)
    by reflexivity.
  split; [split; [exact H1|split; [exact H2|exact H3]]|].
  exact (EndProofs.feedback_replaces_the_first_token twice_labelled (Some true)
           "Answer: " " (%ANS%)" H1 H2 H3).
Defined.

Lemma scene_ends_once_sample :
  exists s,
    VslGridScene.trial (VslGridScene.mount EmptyString) VslGridScene.sample_scene
    = Some s /\
    Nat.iter 3 (VslGridScene.fire_timeout VslGridScene.sample_scene) s =
    VslGridScene.mkScene EmptyString []
      [VslGridScene.mkTrialData
         (VslGridScene.stimuli VslGridScene.sample_scene)].
Proof.
  eexists. split; [vm_compute; reflexivity|].
  apply (GridMore.scene_ends_once EmptyString VslGridScene.sample_scene _ 2).
  vm_compute. reflexivity.
Defined.

End MoreInstances.
